(** * swipe-events.js: the touch-gesture tracker and its telemetry record

    A shallow embedding of [docs/swipe-events.js] (version 1.1): the closure
    variables of the [SwipeEvents] module become a [State] record that is
    threaded through the four touch listeners, [fireSwipeEvent] becomes a
    function from the state and its arguments to the [detail] object of the
    published [swipe] event, and the two public functions become state
    transformers returning a boolean.

    Numbers.  A JavaScript number is modelled as [number]: [NaN], the two
    infinities, or a finite real.  The special values follow IEEE 754 as
    ECMAScript prescribes them (division by zero, [NaN] propagation,
    comparisons with [NaN], truthiness).  Finite arithmetic is exact: the
    rounding, overflow and signed zero of binary64 are not modelled, and
    [Math.hypot] and [Math.atan2] are the mathematical functions.  What is
    proved over these numbers are relations that rounding keeps: orders,
    signs, zeros, and equalities between fields that the source computes by
    the same operations.  Where rounding itself decides what is published,
    the source's expression is evaluated in binary64 (module [B64]).
    A variable declared with [let x;] holds [undefined] until it is assigned,
    so the closure variables are [value]s.

    Inputs.  A listener receives the touch event and reads the clock: the
    value of [Date.now()] is an argument [now] of each listener. *)

From Stdlib Require Import Reals Lra List String Bool.
From Stdlib Require Import ZArith SpecFloat.
Import ListNotations.

Local Open Scope R_scope.

(** ** JavaScript numbers and values *)

Inductive number : Type :=
  | NaN
  | PosInf
  | NegInf
  | Fin (r : R).

Inductive value : Type :=
  | Undefined
  | Num (n : number).

(** [ToNumber(undefined)] is [NaN]. *)
Definition ToNumber (v : value) : number :=
  match v with
  | Undefined => NaN
  | Num n => n
  end.

Definition Rltb (x y : R) : bool := if Rlt_dec x y then true else false.
Definition Reqb (x y : R) : bool := if Req_dec_T x y then true else false.

(** [a + b] *)
Definition add (a b : number) : number :=
  match a, b with
  | NaN, _ | _, NaN => NaN
  | PosInf, NegInf | NegInf, PosInf => NaN
  | PosInf, _ | _, PosInf => PosInf
  | NegInf, _ | _, NegInf => NegInf
  | Fin x, Fin y => Fin (x + y)
  end.

(** [a - b] *)
Definition sub (a b : number) : number :=
  match a, b with
  | NaN, _ | _, NaN => NaN
  | PosInf, PosInf | NegInf, NegInf => NaN
  | PosInf, _ | _, NegInf => PosInf
  | NegInf, _ | _, PosInf => NegInf
  | Fin x, Fin y => Fin (x - y)
  end.

(** [a * b]; an infinity times zero is [NaN]. *)
Definition mul (a b : number) : number :=
  match a, b with
  | NaN, _ | _, NaN => NaN
  | PosInf, PosInf | NegInf, NegInf => PosInf
  | PosInf, NegInf | NegInf, PosInf => NegInf
  | PosInf, Fin y | Fin y, PosInf =>
      if Reqb y 0 then NaN else if Rltb 0 y then PosInf else NegInf
  | NegInf, Fin y | Fin y, NegInf =>
      if Reqb y 0 then NaN else if Rltb 0 y then NegInf else PosInf
  | Fin x, Fin y => Fin (x * y)
  end.

(** [a / b].  A finite number over zero is [NaN] when the numerator is zero
    and an infinity of the numerator's sign otherwise (the zero is [+0]). *)
Definition div (a b : number) : number :=
  match a, b with
  | NaN, _ | _, NaN => NaN
  | (PosInf | NegInf), (PosInf | NegInf) => NaN
  | PosInf, Fin y => if Rltb y 0 then NegInf else PosInf
  | NegInf, Fin y => if Rltb y 0 then PosInf else NegInf
  | Fin _, (PosInf | NegInf) => Fin 0
  | Fin x, Fin y =>
      if Reqb y 0
      then (if Reqb x 0 then NaN else if Rltb 0 x then PosInf else NegInf)
      else Fin (x / y)
  end.

(** [a < b]: false as soon as one side is [NaN]. *)
Definition lt (a b : number) : bool :=
  match a, b with
  | NaN, _ | _, NaN => false
  | PosInf, _ => false
  | _, NegInf => false
  | NegInf, _ => true
  | Fin _, PosInf => true
  | Fin x, Fin y => Rltb x y
  end.

(** [a > b] *)
Definition gt (a b : number) : bool := lt b a.

(** [ToBoolean] of a number: [NaN] and zero are falsy. *)
Definition truthy (a : number) : bool :=
  match a with
  | NaN => false
  | Fin x => negb (Reqb x 0)
  | PosInf | NegInf => true
  end.

(** [a || b] on numbers. *)
Definition or_else (a b : number) : number := if truthy a then a else b.

(** ** The [Math] object *)

Module Math.

Definition PI : number := Fin Rtrigo1.PI.

Definition abs (a : number) : number :=
  match a with
  | NaN => NaN
  | PosInf | NegInf => PosInf
  | Fin x => Fin (Rabs x)
  end.

(** [Math.hypot(a, b)]: an infinite argument wins over [NaN]. *)
Definition hypot (a b : number) : number :=
  match a, b with
  | (PosInf | NegInf), _ | _, (PosInf | NegInf) => PosInf
  | NaN, _ | _, NaN => NaN
  | Fin x, Fin y => Fin (sqrt (x * x + y * y))
  end.

(** The angle of the point [(x, y)] in (-PI, PI]. *)
Definition Ratan2 (y x : R) : R :=
  if Rlt_dec 0 x then atan (y / x)
  else if Rlt_dec x 0 then
    (if Rlt_dec y 0 then atan (y / x) - Rtrigo1.PI
     else atan (y / x) + Rtrigo1.PI)
  else if Rlt_dec 0 y then Rtrigo1.PI / 2
  else if Rlt_dec y 0 then - (Rtrigo1.PI / 2)
  else 0.

(** [Math.atan2(y, x)] with ECMAScript's table for infinite arguments. *)
Definition atan2 (y x : number) : number :=
  match y, x with
  | NaN, _ | _, NaN => NaN
  | PosInf, PosInf => Fin (Rtrigo1.PI / 4)
  | PosInf, NegInf => Fin (3 * Rtrigo1.PI / 4)
  | PosInf, Fin _ => Fin (Rtrigo1.PI / 2)
  | NegInf, PosInf => Fin (- (Rtrigo1.PI / 4))
  | NegInf, NegInf => Fin (- (3 * Rtrigo1.PI / 4))
  | NegInf, Fin _ => Fin (- (Rtrigo1.PI / 2))
  | Fin _, PosInf => Fin 0
  | Fin b, NegInf => if Rltb b 0 then Fin (- Rtrigo1.PI) else Fin Rtrigo1.PI
  | Fin b, Fin a => Fin (Ratan2 b a)
  end.

End Math.

(** ** Touch events *)

Inductive EventType : Type :=
  | touchstart
  | touchmove
  | touchend
  | touchcancel.

Definition EventType_eqb (a b : EventType) : bool :=
  match a, b with
  | touchstart, touchstart
  | touchmove, touchmove
  | touchend, touchend
  | touchcancel, touchcancel => true
  | _, _ => false
  end.

(** What the listeners read of a [TouchEvent]: [e.type] and the client
    coordinates of [e.changedTouches[0]].  [clientX] and [clientY] are Web IDL
    [double]s, which are finite. *)
Record TouchEvent : Type := mkTouchEvent {
  type : EventType;
  clientX : R;
  clientY : R
}.

(** ** The published record: [detail] of the [swipe] event *)

Module Detail.

Record t : Type := mk {
  event : TouchEvent;
  eventTime : value;
  duration : number;
  initial : bool;
  ongoing : bool;
  cardinal4 : string;
  cardinal8 : string;
  theta : number;
  originX : value;
  originY : value;
  currentX : value;
  currentY : value;
  totalDistanceX : number;
  totalDistanceY : number;
  totalDistance : number;
  latestDistanceX : number;
  latestDistanceY : number;
  latestDistance : number;
  overallSpeedX : number;
  overallSpeedY : number;
  overallSpeed : number;
  latestSpeedX : number;
  latestSpeedY : number;
  latestSpeed : number
}.

End Detail.

(** ** The closure variables of [SwipeEvents] *)

Record State : Type := mkState {
  logEvents : bool;
  originX : value;
  originY : value;
  lastX : value;
  lastY : value;
  firstEvent : value;
  lastEvent : value
}.

(** The state when the script has been loaded. *)
Definition init : State :=
  {| logEvents := false;
     originX := Undefined; originY := Undefined;
     lastX := Undefined; lastY := Undefined;
     firstEvent := Undefined; lastEvent := Undefined |}.

(** ** [fireSwipeEvent] *)

Definition fireSwipeEvent (s : State) (currentX currentY eventTime : value)
    (e : TouchEvent) : Detail.t :=
  let initial := EventType_eqb (type e) touchstart in
  let ongoing := initial || EventType_eqb (type e) touchmove in

  let totalChangeInX := sub (ToNumber currentX) (ToNumber (originX s)) in
  let totalChangeInY := sub (ToNumber currentY) (ToNumber (originY s)) in

  let totalDistanceX := Math.abs totalChangeInX in
  let totalDistanceY := Math.abs totalChangeInY in
  let totalDistance := Math.hypot totalDistanceX totalDistanceY in

  let latestDistanceX :=
    Math.abs (sub (ToNumber currentX) (ToNumber (lastX s))) in
  let latestDistanceY :=
    Math.abs (sub (ToNumber currentY) (ToNumber (lastY s))) in
  let latestDistance := Math.hypot latestDistanceX latestDistanceY in

  let duration := sub (ToNumber eventTime) (ToNumber (firstEvent s)) in

  let overallSpeedX := or_else (div totalDistanceX duration) (Fin 0) in
  let overallSpeedY := or_else (div totalDistanceY duration) (Fin 0) in
  let overallSpeed := or_else (div totalDistance duration) (Fin 0) in

  let millisSinceLastEvent :=
    sub (ToNumber eventTime) (ToNumber (lastEvent s)) in

  let latestSpeedX := or_else (div latestDistanceX millisSinceLastEvent) (Fin 0) in
  let latestSpeedY := or_else (div latestDistanceY millisSinceLastEvent) (Fin 0) in
  let latestSpeed := or_else (div latestDistance millisSinceLastEvent) (Fin 0) in

  let horizontalDir :=
    if gt (ToNumber (originX s)) (ToNumber currentX) then "W"%string else "E"%string in
  let verticalDir :=
    if gt (ToNumber (originY s)) (ToNumber currentY) then "N"%string else "S"%string in
  let tangent :=
    mul (Math.atan2 totalDistanceY totalDistanceX) (div (Fin 180) Math.PI) in

  let cardinal4 :=
    if gt totalDistanceX totalDistanceY then horizontalDir else verticalDir in
  let cardinal8 :=
    if gt tangent (Fin 22.5) && lt tangent (Fin 67.5)
    then String.append verticalDir horizontalDir
    else cardinal4 in

  let radians := Math.atan2 totalChangeInY totalChangeInX in
  let theta :=
    mul (if lt radians (Fin 0) then add radians (mul (Fin 2) Math.PI) else radians)
        (div (Fin 180) Math.PI) in

  {| Detail.event := e;
     Detail.eventTime := eventTime;
     Detail.duration := duration;
     Detail.initial := initial;
     Detail.ongoing := ongoing;
     Detail.cardinal4 := cardinal4;
     Detail.cardinal8 := cardinal8;
     Detail.theta := theta;
     Detail.originX := originX s;
     Detail.originY := originY s;
     Detail.currentX := currentX;
     Detail.currentY := currentY;
     Detail.totalDistanceX := totalDistanceX;
     Detail.totalDistanceY := totalDistanceY;
     Detail.totalDistance := totalDistance;
     Detail.latestDistanceX := latestDistanceX;
     Detail.latestDistanceY := latestDistanceY;
     Detail.latestDistance := latestDistance;
     Detail.overallSpeedX := overallSpeedX;
     Detail.overallSpeedY := overallSpeedY;
     Detail.overallSpeed := overallSpeed;
     Detail.latestSpeedX := latestSpeedX;
     Detail.latestSpeedY := latestSpeedY;
     Detail.latestSpeed := latestSpeed |}.

(** ** The touch listeners

    Each listener takes the event and the value of [Date.now()] at its call,
    and returns the new state together with the record it published. *)

Definition on_touchstart (e : TouchEvent) (now : R) (s : State)
    : State * Detail.t :=
  let s1 :=
    {| logEvents := logEvents s;
       originX := Num (Fin (clientX e));
       originY := Num (Fin (clientY e));
       lastX := Num (Fin (clientX e));
       lastY := Num (Fin (clientY e));
       firstEvent := Num (Fin now);
       lastEvent := Num (Fin now) |} in
  (s1, fireSwipeEvent s1 (originX s1) (originY s1) (firstEvent s1) e).

Definition on_touchmove (e : TouchEvent) (now : R) (s : State)
    : State * Detail.t :=
  let touchX := Num (Fin (clientX e)) in
  let touchY := Num (Fin (clientY e)) in
  let eventTime := Num (Fin now) in
  let d := fireSwipeEvent s touchX touchY eventTime e in
  ({| logEvents := logEvents s;
      originX := originX s;
      originY := originY s;
      lastX := touchX;
      lastY := touchY;
      firstEvent := firstEvent s;
      lastEvent := eventTime |}, d).

Definition on_touchend (e : TouchEvent) (now : R) (s : State)
    : State * Detail.t :=
  (s, fireSwipeEvent s (lastX s) (lastY s) (Num (Fin now)) e).

Definition on_touchcancel (e : TouchEvent) (now : R) (s : State)
    : State * Detail.t :=
  (s, fireSwipeEvent s (lastX s) (lastY s) (Num (Fin now)) e).

(** The browser calls the listener registered for the event's type. *)
Definition dispatch (e : TouchEvent) (now : R) (s : State)
    : State * Detail.t :=
  match type e with
  | touchstart => on_touchstart e now s
  | touchmove => on_touchmove e now s
  | touchend => on_touchend e now s
  | touchcancel => on_touchcancel e now s
  end.

(** A sequence of touch events, each with its arrival time; the result is the
    final state and the records published, in order. *)
Fixpoint run (es : list (TouchEvent * R)) (s : State)
    : State * list Detail.t :=
  match es with
  | [] => (s, [])
  | (e, now) :: rest =>
      let (s1, d) := dispatch e now s in
      let (s2, ds) := run rest s1 in
      (s2, d :: ds)
  end.

(** The module's own [swipe] listener: what it sends to [console.debug]. *)
Definition swipe_listener (s : State) (d : Detail.t) : list Detail.t :=
  if logEvents s then [d] else [].

(** ** The public functions *)

Definition telemetryLoggingEnabled (s : State) : State * bool :=
  (s, logEvents s).

Definition toggleTelemetryLogging (s : State) : State * bool :=
  let s1 :=
    {| logEvents := negb (logEvents s);
       originX := originX s;
       originY := originY s;
       lastX := lastX s;
       lastY := lastY s;
       firstEvent := firstEvent s;
       lastEvent := lastEvent s |} in
  (s1, logEvents s1).

(** ** Sessions that have seen a [touchstart] *)

Definition is_finite (v : value) : bool :=
  match v with
  | Num (Fin _) => true
  | _ => false
  end.

(** The six tracking variables hold finite numbers: some [touchstart] has
    been handled since the script was loaded. *)
Definition initialised (s : State) : bool :=
  is_finite (originX s) && is_finite (originY s) &&
  is_finite (lastX s) && is_finite (lastY s) &&
  is_finite (firstEvent s) && is_finite (lastEvent s).

(** A number that is finite and not negative. *)
Definition nonnegative (a : number) : Prop :=
  exists r, a = Fin r /\ 0 <= r.

(** A number that lies strictly between two reals ([NaN] does not). *)
Definition strictly_between (lo hi : R) (a : number) : Prop :=
  match a with
  | Fin r => lo < r < hi
  | _ => False
  end.

(** Radians to degrees, as the source writes it. *)
Definition degrees (a : number) : number := mul a (div (Fin 180) Math.PI).

(** ** Scenarios and properties used in the statements below *)

(** An event that is not a [touchstart]. *)
Definition not_start (en : TouchEvent * R) : bool :=
  negb (EventType_eqb (type (fst en)) touchstart).

(** The session after a [touchstart] at point (x, y) and time [t], from the
    freshly loaded script. *)
Definition started_at (x y t : R) : State :=
  fst (dispatch (mkTouchEvent touchstart x y) t init).

(** The property that handling [e] at time [now] keeps the origin and the
    first time and stores the event's point and time as the last ones. *)
Definition advances_last (e : TouchEvent) (now : R) (s : State) : Prop :=
  let s1 := fst (dispatch e now s) in
  originX s1 = originX s /\ originY s1 = originY s /\
  firstEvent s1 = firstEvent s /\
  lastX s1 = Num (Fin (clientX e)) /\ lastY s1 = Num (Fin (clientY e)) /\
  lastEvent s1 = Num (Fin now).

(** The two directions of a record, from its origin and current point. *)
Definition horizontalDir (d : Detail.t) : string :=
  if gt (ToNumber (Detail.originX d)) (ToNumber (Detail.currentX d))
  then "W"%string else "E"%string.

Definition verticalDir (d : Detail.t) : string :=
  if gt (ToNumber (Detail.originY d)) (ToNumber (Detail.currentY d))
  then "N"%string else "S"%string.

(** The first-quadrant angle of a record's total displacement, in degrees. *)
Definition tangentDeg (d : Detail.t) : number :=
  degrees (Math.atan2 (Detail.totalDistanceY d) (Detail.totalDistanceX d)).

(** The signed displacement of a record from its origin, and its angle. *)
Definition totalChangeInX (d : Detail.t) : number :=
  sub (ToNumber (Detail.currentX d)) (ToNumber (Detail.originX d)).

Definition totalChangeInY (d : Detail.t) : number :=
  sub (ToNumber (Detail.currentY d)) (ToNumber (Detail.originY d)).

Definition radians (d : Detail.t) : number :=
  Math.atan2 (totalChangeInY d) (totalChangeInX d).

(** A gesture whose first [touchmove] arrives in the millisecond of its
    [touchstart]: [Date.now()] returns 1000 for both. *)
Definition move_in_start_millisecond : Detail.t :=
  snd (dispatch (mkTouchEvent touchmove 5 0) 1000 (started_at 0 0 1000)).

(** A move, a lift and a cancel, as events that follow a [touchstart]. *)
Definition demo_moves : list (TouchEvent * R) :=
  [ (mkTouchEvent touchmove 5 0, 10);
    (mkTouchEvent touchend 9 9, 20);
    (mkTouchEvent touchcancel 1 1, 30) ].

(** ** Further notions used beyond the claims *)

(** A [touchend] or [touchcancel]. *)
Definition terminal (en : TouchEvent * R) : bool :=
  EventType_eqb (type (fst en)) touchend ||
  EventType_eqb (type (fst en)) touchcancel.

(** What the module's own [swipe] listener sends to [console.debug] along a
    sequence of events: it runs inside [document.dispatchEvent], once per
    record, and reads [logEvents] there. *)
Fixpoint console (es : list (TouchEvent * R)) (s : State) : list Detail.t :=
  match es with
  | [] => []
  | (e, now) :: rest =>
      let (s1, d) := dispatch e now s in
      swipe_listener s d ++ console rest s1
  end.

(** [eventTime - lastEvent] of a call of [fireSwipeEvent] at time [now]. *)
Definition millisSinceLastEvent (now : R) (s : State) : number :=
  sub (Fin now) (ToNumber (lastEvent s)).

(** [q] is the finite quotient of the finite numbers [a] and [b]. *)
Definition quotient_of (q a b : number) : Prop :=
  exists x t, a = Fin x /\ b = Fin t /\ t <> 0 /\ q = Fin (x / t).

(** No [touchstart] has been handled: origin and first time are undefined. *)
Definition never_started (s : State) : bool :=
  match originX s, originY s, firstEvent s with
  | Undefined, Undefined, Undefined => true
  | _, _, _ => false
  end.

(** The value of [theta] for finite signed displacements [dy] and [dx]:
    the angle, plus a full turn when it is negative, in degrees. *)
Definition theta_of (dy dx : R) : R :=
  (if Rlt_dec (Math.Ratan2 dy dx) 0
   then Math.Ratan2 dy dx + 2 * Rtrigo1.PI
   else Math.Ratan2 dy dx) * (180 / Rtrigo1.PI).

(** The value of [tangent] for finite signed displacements: the angle of
    the absolute displacements, in degrees. *)
Definition tangent_of (dy dx : R) : R :=
  Math.Ratan2 (Rabs dy) (Rabs dx) * (180 / Rtrigo1.PI).

(** A [touchstart]. *)
Definition is_start (en : TouchEvent * R) : bool :=
  EventType_eqb (type (fst en)) touchstart.

(** What every record shows while no [touchstart] has been handled. *)
Definition blind_record (d : Detail.t) : Prop :=
  Detail.originX d = Undefined /\ Detail.originY d = Undefined /\
  Detail.totalDistanceX d = NaN /\ Detail.totalDistanceY d = NaN /\
  Detail.totalDistance d = NaN /\ Detail.duration d = NaN /\
  Detail.overallSpeedX d = Fin 0 /\ Detail.overallSpeedY d = Fin 0 /\
  Detail.overallSpeed d = Fin 0 /\
  Detail.cardinal4 d = "S"%string /\ Detail.cardinal8 d = "S"%string /\
  Detail.theta d = NaN.

(** The length of the vector (a, b). *)
Definition norm2 (a b : R) : R := sqrt (a * a + b * b).

(** [h] lies between the larger of [x] and [y] and their sum: three finite
    numbers with [x <= h], [y <= h] and [h <= x + y]. *)
Definition between_components (x y h : number) : Prop :=
  exists a b c : R,
    x = Fin a /\ y = Fin b /\ h = Fin c /\ a <= c /\ b <= c /\ c <= a + b.

(** ** Version 1.0: [swipe-events.js] at the root of the repository

    The earlier version of the module.  It reads the screen coordinates of
    the touch, publishes nothing for a [touchstart], takes the point of a
    [touchend] or [touchcancel] from the event itself, and divides without a
    guard. *)

Module V10.

Record TouchEvent : Type := mkTouchEvent {
  type : EventType;
  screenX : R;
  screenY : R
}.

Module Detail.

Record t : Type := mk {
  eventTime : value;
  duration : number;
  ongoing : bool;
  cardinal4dir : string;
  cardinal8dir : string;
  touchStartX : value;
  touchStartY : value;
  touchEndX : value;
  touchEndY : value;
  totalDistanceX : number;
  totalDistanceY : number;
  totalDistance : number;
  latestDistanceX : number;
  latestDistanceY : number;
  latestDistance : number;
  totalSpeedX : number;
  totalSpeedY : number;
  totalSpeed : number;
  latestSpeedX : number;
  latestSpeedY : number;
  latestSpeed : number
}.

End Detail.

Record State : Type := mkState {
  logEvents : bool;
  touchStartX : value;
  touchStartY : value;
  lastTouchX : value;
  lastTouchY : value;
  firstEventTime : value;
  lastEventTime : value
}.

Definition init : State :=
  {| logEvents := false;
     touchStartX := Undefined; touchStartY := Undefined;
     lastTouchX := Undefined; lastTouchY := Undefined;
     firstEventTime := Undefined; lastEventTime := Undefined |}.

Definition fireSwipeEvent (s : State) (startX startY endX endY eventTime : value)
    (ongoing : bool) : Detail.t :=
  let totalDistanceX := Math.abs (sub (ToNumber endX) (ToNumber startX)) in
  let totalDistanceY := Math.abs (sub (ToNumber endY) (ToNumber startY)) in
  let totalDistance := Math.hypot totalDistanceX totalDistanceY in

  let latestDistanceX :=
    Math.abs (sub (ToNumber endX) (ToNumber (lastTouchX s))) in
  let latestDistanceY :=
    Math.abs (sub (ToNumber endY) (ToNumber (lastTouchY s))) in
  let latestDistance := Math.hypot latestDistanceX latestDistanceY in

  let duration := sub (ToNumber eventTime) (ToNumber (firstEventTime s)) in

  let totalSpeedX := div totalDistanceX duration in
  let totalSpeedY := div totalDistanceY duration in
  let totalSpeed := div totalDistance duration in

  let millisSinceLastEvent :=
    sub (ToNumber eventTime) (ToNumber (lastEventTime s)) in

  let latestSpeedX := div latestDistanceX millisSinceLastEvent in
  let latestSpeedY := div latestDistanceY millisSinceLastEvent in
  let latestSpeed := div latestDistance millisSinceLastEvent in

  let horizontalDir :=
    if gt (ToNumber startX) (ToNumber endX) then "W"%string else "E"%string in
  let verticalDir :=
    if gt (ToNumber startY) (ToNumber endY) then "N"%string else "S"%string in
  let theta :=
    mul (Math.atan2 totalDistanceY totalDistanceX) (div (Fin 180) Math.PI) in

  let cardinal4dir :=
    if gt totalDistanceX totalDistanceY then horizontalDir else verticalDir in
  let cardinal8dir :=
    if gt theta (Fin 22.5) && lt theta (Fin 67.5)
    then String.append verticalDir horizontalDir
    else cardinal4dir in

  {| Detail.eventTime := eventTime;
     Detail.duration := duration;
     Detail.ongoing := ongoing;
     Detail.cardinal4dir := cardinal4dir;
     Detail.cardinal8dir := cardinal8dir;
     Detail.touchStartX := startX;
     Detail.touchStartY := startY;
     Detail.touchEndX := endX;
     Detail.touchEndY := endY;
     Detail.totalDistanceX := totalDistanceX;
     Detail.totalDistanceY := totalDistanceY;
     Detail.totalDistance := totalDistance;
     Detail.latestDistanceX := latestDistanceX;
     Detail.latestDistanceY := latestDistanceY;
     Detail.latestDistance := latestDistance;
     Detail.totalSpeedX := totalSpeedX;
     Detail.totalSpeedY := totalSpeedY;
     Detail.totalSpeed := totalSpeed;
     Detail.latestSpeedX := latestSpeedX;
     Detail.latestSpeedY := latestSpeedY;
     Detail.latestSpeed := latestSpeed |}.

(** Each listener returns the new state and the record it published, if it
    published one. *)
Definition on_touchstart (e : TouchEvent) (now : R) (s : State)
    : State * option Detail.t :=
  ({| logEvents := logEvents s;
      touchStartX := Num (Fin (screenX e));
      touchStartY := Num (Fin (screenY e));
      lastTouchX := Num (Fin (screenX e));
      lastTouchY := Num (Fin (screenY e));
      firstEventTime := Num (Fin now);
      lastEventTime := Num (Fin now) |}, None).

Definition on_touchmove (e : TouchEvent) (now : R) (s : State)
    : State * option Detail.t :=
  let touchCurrentX := Num (Fin (screenX e)) in
  let touchCurrentY := Num (Fin (screenY e)) in
  let eventTime := Num (Fin now) in
  let d := fireSwipeEvent s (touchStartX s) (touchStartY s)
             touchCurrentX touchCurrentY eventTime true in
  ({| logEvents := logEvents s;
      touchStartX := touchStartX s;
      touchStartY := touchStartY s;
      lastTouchX := touchCurrentX;
      lastTouchY := touchCurrentY;
      firstEventTime := firstEventTime s;
      lastEventTime := eventTime |}, Some d).

Definition on_touchend (e : TouchEvent) (now : R) (s : State)
    : State * option Detail.t :=
  let touchEndX := Num (Fin (screenX e)) in
  let touchEndY := Num (Fin (screenY e)) in
  (s, Some (fireSwipeEvent s (touchStartX s) (touchStartY s)
              touchEndX touchEndY (Num (Fin now)) false)).

Definition on_touchcancel (e : TouchEvent) (now : R) (s : State)
    : State * option Detail.t :=
  let touchEndX := Num (Fin (screenX e)) in
  let touchEndY := Num (Fin (screenY e)) in
  (s, Some (fireSwipeEvent s (touchStartX s) (touchStartY s)
              touchEndX touchEndY (Num (Fin now)) false)).

Definition dispatch (e : TouchEvent) (now : R) (s : State)
    : State * option Detail.t :=
  match type e with
  | touchstart => on_touchstart e now s
  | touchmove => on_touchmove e now s
  | touchend => on_touchend e now s
  | touchcancel => on_touchcancel e now s
  end.

Fixpoint run (es : list (TouchEvent * R)) (s : State)
    : State * list Detail.t :=
  match es with
  | [] => (s, [])
  | (e, now) :: rest =>
      let (s1, od) := dispatch e now s in
      let (s2, ds) := run rest s1 in
      (s2, match od with Some d => d :: ds | None => ds end)
  end.

(** A [touchstart] of version 1.0. *)
Definition is_start (en : TouchEvent * R) : bool :=
  EventType_eqb (type (fst en)) touchstart.

End V10.

(** The same touch and the same session seen by version 1.1, when the client
    coordinates are the screen coordinates. *)
Definition of_v10_event (e : V10.TouchEvent) : TouchEvent :=
  {| type := V10.type e; clientX := V10.screenX e; clientY := V10.screenY e |}.

Definition of_v10_state (s : V10.State) : State :=
  {| logEvents := V10.logEvents s;
     originX := V10.touchStartX s;
     originY := V10.touchStartY s;
     lastX := V10.lastTouchX s;
     lastY := V10.lastTouchY s;
     firstEvent := V10.firstEventTime s;
     lastEvent := V10.lastEventTime s |}.

(** ** The demonstration page

    The script of the page that uses the module: it turns the console echo
    on when the page has loaded and, on every [swipe] event, moves a cross
    to the current point and, on the first event of a gesture, a compass as
    well.  The panel with the JSON text of the record is left out.

    An element's inline style is modelled by what the script sets:
    [display], and for [left] and [top] the number in front of ["px"] in
    the last assignment that was a length.  [offsetHeight] is read from the layout: it is a
    parameter, the height of each element once it is displayed. *)

Module Demo.

Inductive ElemId : Type :=
  | compass
  | cross.

Definition ElemId_eqb (a b : ElemId) : bool :=
  match a, b with
  | compass, compass | cross, cross => true
  | _, _ => false
  end.

Record Style : Type := mkStyle {
  display : option string;
  left : option number;
  top : option number
}.

(** The inline styles of the two elements. *)
Definition Page : Type := ElemId -> Style.

(** No inline style yet. *)
Definition loaded : Page := fun _ => mkStyle None None None.

(** What [centerOnTouch] can be given: a [swipe] event, whose [detail] is an
    object, or a touch event, whose [detail] is 0. *)
Inductive Event : Type :=
  | SwipeEvent (detail : Detail.t)
  | Touch (e : TouchEvent).

(** The assignment [elem.style.left = n + "px"] (and the same for [top]):
    the string is a length when [n] is finite; for a [NaN] or an infinity
    it is "NaNpx" or "Infinitypx", which is no length, and an assignment of
    a value that does not parse leaves the property as it was. *)
Definition set_px (n : number) (old : option number) : option number :=
  match n with
  | Fin _ => Some n
  | _ => old
  end.

Definition centerOnTouch (offsetHeight : ElemId -> R) (elemId : ElemId)
    (e : Event) (p : Page) : Page :=
  let touchX :=
    match e with
    | SwipeEvent detail => Detail.currentX detail
    | Touch t => Num (Fin (clientX t))
    end in
  let touchY :=
    match e with
    | SwipeEvent detail => Detail.currentY detail
    | Touch t => Num (Fin (clientY t))
    end in
  let height := Fin (offsetHeight elemId) in
  let style :=
    {| display := Some "block"%string;
       left := set_px (sub (ToNumber touchX) (div height (Fin 2)))
                 (left (p elemId));
       top := set_px (sub (ToNumber touchY) (div height (Fin 2)))
                (top (p elemId)) |} in
  fun id => if ElemId_eqb id elemId then style else p id.

(** The page's [swipe] listener. *)
Definition on_swipe (offsetHeight : ElemId -> R) (detail : Detail.t)
    (p : Page) : Page :=
  let p1 :=
    if Detail.initial detail
    then centerOnTouch offsetHeight compass (SwipeEvent detail) p
    else p in
  centerOnTouch offsetHeight cross (SwipeEvent detail) p1.

(** The page's [DOMContentLoaded] listener. *)
Definition on_load (s : State) : State := fst (toggleTelemetryLogging s).

(** One touch event on the page: the module's listener publishes the record,
    the page's listener receives it. *)
Definition handle (offsetHeight : ElemId -> R) (e : TouchEvent) (now : R)
    (sp : State * Page) : State * Page :=
  let (s1, d) := dispatch e now (fst sp) in
  (s1, on_swipe offsetHeight d (snd sp)).

Fixpoint run (offsetHeight : ElemId -> R) (es : list (TouchEvent * R))
    (sp : State * Page) : State * Page :=
  match es with
  | [] => sp
  | (e, now) :: rest => run offsetHeight rest (handle offsetHeight e now sp)
  end.

(** The style that puts the middle of a square element of height [h] at the
    point (x, y). *)
Definition centred_at (h : R) (x y : number) : Style :=
  {| display := Some "block"%string;
     left := Some (sub x (Fin (h / 2)));
     top := Some (sub y (Fin (h / 2))) |}.

End Demo.

(** ** Binary64

    The numbers of the source are IEEE 754 binary64 values: [spec_float] of
    the standard library at precision 53 and maximal exponent 1024, with
    rounding to nearest, ties to even.  [Math.atan2] is the host's function;
    the value it returns is an argument here. *)

Module B64.

Definition prec : Z := 53%Z.
Definition emax : Z := 1024%Z.

Definition add : spec_float -> spec_float -> spec_float := SFadd prec emax.
Definition sub : spec_float -> spec_float -> spec_float := SFsub prec emax.
Definition mul : spec_float -> spec_float -> spec_float := SFmul prec emax.
Definition div : spec_float -> spec_float -> spec_float := SFdiv prec emax.
Definition lt : spec_float -> spec_float -> bool := SFltb.

(** An integer literal. *)
Definition of_Z (z : Z) : spec_float := binary_normalize prec emax z 0%Z false.

(** [Math.PI], 3.141592653589793. *)
Definition PI : spec_float := S754_finite false 7074237752028440 (-51)%Z.

(** [theta] of [fireSwipeEvent] once [Math.atan2] has returned [radians]. *)
Definition theta_of_radians (radians : spec_float) : spec_float :=
  mul (if lt radians (of_Z 0%Z)
       then add radians (mul (of_Z 2%Z) PI)
       else radians)
      (div (of_Z 180%Z) PI).

(** 100.00000000000001, the binary64 value next above 100. *)
Definition next_above_100 : spec_float :=
  S754_finite false 7036874417766401 (-46)%Z.

(** -1.4210854715202004e-14, which is minus two to the power -46. *)
Definition minus_ulp_of_100 : spec_float :=
  S754_finite true 4503599627370496 (-98)%Z.

(** -7.105427357601002e-17: the angle whose tangent is
    [minus_ulp_of_100 / 200].  So small an angle is its own tangent to
    the last bit, and this is what [Math.atan2] returns for it. *)
Definition tiny_negative_angle : spec_float :=
  S754_finite true 5764607523034235 (-106)%Z.

End B64.

(** ** Facts about the number operations *)

Lemma Rltb_true (x y : R) : x < y -> Rltb x y = true.
Proof. intros H. unfold Rltb. destruct (Rlt_dec x y); [reflexivity | contradiction]. Qed.

Lemma Rltb_false (x y : R) : y <= x -> Rltb x y = false.
Proof. intros H. unfold Rltb. destruct (Rlt_dec x y); [lra | reflexivity]. Qed.

Lemma Rltb_iff (x y : R) : Rltb x y = true <-> x < y.
Proof.
  unfold Rltb. destruct (Rlt_dec x y); split; intros; auto; discriminate.
Qed.

Lemma Reqb_refl (x : R) : Reqb x x = true.
Proof. unfold Reqb. destruct (Req_dec_T x x); [reflexivity | contradiction]. Qed.

Lemma Reqb_neq (x y : R) : x <> y -> Reqb x y = false.
Proof. intros H. unfold Reqb. destruct (Req_dec_T x y); [contradiction | reflexivity]. Qed.

Lemma Reqb_iff (x y : R) : Reqb x y = true <-> x = y.
Proof.
  unfold Reqb. destruct (Req_dec_T x y); split; intros; auto; discriminate.
Qed.

Lemma sub_self (x : R) : sub (Fin x) (Fin x) = Fin 0.
Proof. simpl. f_equal. lra. Qed.

Lemma abs_zero : Math.abs (Fin 0) = Fin 0.
Proof. simpl. now rewrite Rabs_R0. Qed.

Lemma hypot_zero : Math.hypot (Fin 0) (Fin 0) = Fin 0.
Proof.
  simpl. f_equal. replace (0 * 0 + 0 * 0) with 0 by lra. apply sqrt_0.
Qed.

Lemma lt_irrefl (a : number) : lt a a = false.
Proof. destruct a; simpl; auto. apply Rltb_false. lra. Qed.

Lemma gt_irrefl (a : number) : gt a a = false.
Proof. apply lt_irrefl. Qed.

(** The guard [(q) || 0] never lets [NaN] through. *)
Lemma or_else_zero_not_NaN (q : number) : or_else q (Fin 0) <> NaN.
Proof. destruct q; unfold or_else; simpl; try discriminate. destruct (negb _); discriminate. Qed.

(** But it lets an infinity through: infinities are truthy. *)
Lemma or_else_PosInf (b : number) : or_else PosInf b = PosInf.
Proof. reflexivity. Qed.

(** A zero distance gives a zero speed, whatever the elapsed time is. *)
Lemma speed_of_zero_distance (d : number) :
  or_else (div (Fin 0) d) (Fin 0) = Fin 0.
Proof.
  destruct d as [ | | | y]; unfold or_else; simpl; try reflexivity.
  - now rewrite Reqb_refl.
  - now rewrite Reqb_refl.
  - destruct (Reqb y 0) eqn:Hy.
    + now rewrite Reqb_refl.
    + simpl. replace (0 / y) with 0.
      * now rewrite Reqb_refl.
      * unfold Rdiv. lra.
Qed.

(** A positive distance over a zero time is [Infinity], and stays so. *)
Lemma speed_of_positive_distance_in_no_time (x : R) :
  0 < x -> or_else (div (Fin x) (Fin 0)) (Fin 0) = PosInf.
Proof.
  intros Hx. unfold or_else. simpl.
  rewrite Reqb_refl, (Reqb_neq x 0) by lra.
  now rewrite (Rltb_true 0 x Hx).
Qed.

Lemma deg_factor : div (Fin 180) Math.PI = Fin (180 / Rtrigo1.PI).
Proof.
  simpl. rewrite Reqb_neq; [reflexivity | apply PI_neq0].
Qed.

Lemma degrees_Fin (r : R) : degrees (Fin r) = Fin (r * (180 / Rtrigo1.PI)).
Proof. unfold degrees. now rewrite deg_factor. Qed.

Lemma degrees_NaN : degrees NaN = NaN.
Proof. reflexivity. Qed.

Lemma two_PI : mul (Fin 2) Math.PI = Fin (2 * Rtrigo1.PI).
Proof. reflexivity. Qed.

(** ** The session state along a sequence of events *)

Lemma run_cons (e : TouchEvent) (now : R) (rest : list (TouchEvent * R)) (s : State) :
  run ((e, now) :: rest) s =
  (fst (run rest (fst (dispatch e now s))),
   snd (dispatch e now s) :: snd (run rest (fst (dispatch e now s)))).
Proof.
  simpl. destruct (dispatch e now s) as [s1 d]. simpl.
  destruct (run rest s1) as [s2 ds]. reflexivity.
Qed.

Lemma dispatch_keeps_origin (e : TouchEvent) (now : R) (s : State) :
  type e <> touchstart ->
  originX (fst (dispatch e now s)) = originX s /\
  originY (fst (dispatch e now s)) = originY s /\
  firstEvent (fst (dispatch e now s)) = firstEvent s.
Proof.
  intros Hty. unfold dispatch.
  destruct (type e); try contradiction; simpl; auto.
Qed.

Lemma not_start_type (e : TouchEvent) (now : R) :
  not_start (e, now) = true -> type e <> touchstart.
Proof.
  unfold not_start. simpl. intros H Hty. rewrite Hty in H. discriminate.
Qed.

Lemma run_keeps_origin (es : list (TouchEvent * R)) :
  forall s, forallb not_start es = true ->
  originX (fst (run es s)) = originX s /\
  originY (fst (run es s)) = originY s /\
  firstEvent (fst (run es s)) = firstEvent s.
Proof.
  induction es as [ | [e now] rest IH]; intros s Hall.
  - simpl. auto.
  - simpl in Hall. apply andb_true_iff in Hall. destruct Hall as [Hhd Htl].
    rewrite run_cons. cbn [fst].
    destruct (IH (fst (dispatch e now s)) Htl) as (Hx & Hy & Ht).
    destruct (dispatch_keeps_origin e now s (not_start_type e now Hhd))
      as (Hx' & Hy' & Ht').
    rewrite Hx, Hy, Ht. auto.
Qed.

(** Every record published shows the origin of the state it was computed in. *)
Lemma dispatch_publishes_origin (e : TouchEvent) (now : R) (s : State) :
  Detail.originX (snd (dispatch e now s)) = originX (fst (dispatch e now s)) /\
  Detail.originY (snd (dispatch e now s)) = originY (fst (dispatch e now s)).
Proof. unfold dispatch. destruct (type e); simpl; auto. Qed.

Lemma dispatch_keeps_logEvents (e : TouchEvent) (now : R) (s : State) :
  logEvents (fst (dispatch e now s)) = logEvents s.
Proof. unfold dispatch. destruct (type e); reflexivity. Qed.

Lemma touchstart_initialises (e : TouchEvent) (now : R) (s : State) :
  initialised (fst (on_touchstart e now s)) = true.
Proof. reflexivity. Qed.

Lemma dispatch_keeps_initialised (e : TouchEvent) (now : R) (s : State) :
  initialised s = true -> initialised (fst (dispatch e now s)) = true.
Proof.
  intros Hs. unfold dispatch. destruct (type e); simpl; auto.
  unfold initialised in *. simpl.
  repeat (apply andb_true_iff in Hs; destruct Hs as [Hs ?]).
  rewrite Hs. simpl. now repeat (apply andb_true_iff; split).
Qed.

Lemma run_keeps_initialised (es : list (TouchEvent * R)) :
  forall s, initialised s = true -> initialised (fst (run es s)) = true.
Proof.
  induction es as [ | [e now] rest IH]; intros s Hs; [exact Hs | ].
  rewrite run_cons. cbn [fst]. apply IH. now apply dispatch_keeps_initialised.
Qed.

(** Whatever the state was, a sequence of events that begins with a
    [touchstart] ends in an initialised session. *)
Lemma run_after_start_initialised (x y t : R) (es : list (TouchEvent * R)) (s : State) :
  initialised (fst (run ((mkTouchEvent touchstart x y, t) :: es) s)) = true.
Proof.
  rewrite run_cons. cbn [fst]. apply run_keeps_initialised. reflexivity.
Qed.

(** The shape of an initialised session. *)
Lemma initialised_inv (s : State) :
  initialised s = true ->
  exists ox oy lx ly t0 t1,
    originX s = Num (Fin ox) /\ originY s = Num (Fin oy) /\
    lastX s = Num (Fin lx) /\ lastY s = Num (Fin ly) /\
    firstEvent s = Num (Fin t0) /\ lastEvent s = Num (Fin t1).
Proof.
  unfold initialised, is_finite. intros H.
  destruct s as [lg [ | [ | | | ox]] [ | [ | | | oy]] [ | [ | | | lx]]
                   [ | [ | | | ly]] [ | [ | | | t0]] [ | [ | | | t1]]];
    simpl in H; try discriminate.
  exists ox, oy, lx, ly, t0, t1. simpl. repeat split.
Qed.

(** ** The public toggle *)

(** C9: the logging flag starts false; [telemetryLoggingEnabled] returns it
    and leaves the state as it is; [toggleTelemetryLogging] negates the flag,
    returns the new flag and touches no other variable; two toggles in a row
    give back the state they started from; from the initial state the first
    toggle returns true and the second returns false. *)
Theorem toggle_flips_and_query_reads :
  logEvents init = false /\
  (forall s, fst (telemetryLoggingEnabled s) = s /\
             snd (telemetryLoggingEnabled s) = logEvents s) /\
  (forall s, let s1 := fst (toggleTelemetryLogging s) in
             snd (toggleTelemetryLogging s) = negb (logEvents s) /\
             logEvents s1 = negb (logEvents s) /\
             originX s1 = originX s /\ originY s1 = originY s /\
             lastX s1 = lastX s /\ lastY s1 = lastY s /\
             firstEvent s1 = firstEvent s /\ lastEvent s1 = lastEvent s) /\
  (forall s, fst (toggleTelemetryLogging (fst (toggleTelemetryLogging s))) = s) /\
  snd (toggleTelemetryLogging init) = true /\
  snd (telemetryLoggingEnabled (fst (toggleTelemetryLogging init))) = true /\
  snd (toggleTelemetryLogging (fst (toggleTelemetryLogging init))) = false.
Proof.
  split; [reflexivity | ].
  split; [intros s; split; reflexivity | ].
  split; [intros s; simpl; repeat split | ].
  split; [ | repeat split].
  intros [lg ox oy lx ly t0 t1]. simpl. now rewrite negb_involutive.
Qed.

(** The flag decides what the module's own listener echoes, and nothing
    else: the published record is the same with the flag on or off. *)
Lemma swipe_listener_echoes_iff_enabled (s : State) (d : Detail.t) :
  swipe_listener s d = (if logEvents s then [d] else []).
Proof. reflexivity. Qed.

Lemma toggle_leaves_record (e : TouchEvent) (now : R) (s : State) :
  snd (dispatch e now (fst (toggleTelemetryLogging s))) = snd (dispatch e now s).
Proof. unfold dispatch. destruct (type e); reflexivity. Qed.

(** ** The session variables *)

(** C3: along any sequence of events without a [touchstart], [originX],
    [originY] and [firstEvent] keep their values, and the [touchstart] that
    comes next sets all six session variables to its own point and time,
    whatever they held. *)
Theorem origin_fixed_until_next_start :
  forall (es : list (TouchEvent * R)) (s : State) (x y t : R),
    forallb not_start es = true ->
    (originX (fst (run es s)) = originX s /\
     originY (fst (run es s)) = originY s /\
     firstEvent (fst (run es s)) = firstEvent s) /\
    (let s1 := fst (dispatch (mkTouchEvent touchstart x y) t (fst (run es s))) in
     originX s1 = Num (Fin x) /\ originY s1 = Num (Fin y) /\
     lastX s1 = Num (Fin x) /\ lastY s1 = Num (Fin y) /\
     firstEvent s1 = Num (Fin t) /\ lastEvent s1 = Num (Fin t)).
Proof.
  intros es s x y t Hes. split.
  - now apply run_keeps_origin.
  - simpl. repeat split.
Qed.

Lemma origin_fixed_until_next_start_witness :
  forallb not_start demo_moves = true /\
  originX (fst (run demo_moves (started_at 1 2 0))) = originX (started_at 1 2 0).
Proof.
  split; [reflexivity | ].
  apply (origin_fixed_until_next_start demo_moves (started_at 1 2 0) 0 0 0 eq_refl).
Defined.

(** C2 as stated fails for a [touchend]: after a [touchstart] at time 0, a
    [touchend] at time 10 leaves [lastEvent] at 0; its time is not stored. *)
Lemma touchend_does_not_store_its_time :
  ~ advances_last (mkTouchEvent touchend 0 0) 10 (started_at 0 0 0).
Proof.
  unfold advances_last. cbn. intros (_ & _ & _ & _ & _ & H).
  injection H. lra.
Qed.

(** C2, amended: the [touchmove] listener keeps [originX], [originY] and
    [firstEvent], computes the record against the state as it was, and then
    stores the event's point and time in [lastX], [lastY] and [lastEvent];
    the [touchend] and [touchcancel] listeners leave every variable as it
    was. *)
Theorem move_stores_last_and_end_stores_nothing :
  forall (e : TouchEvent) (now : R) (s : State),
    (let s1 := fst (on_touchmove e now s) in
     originX s1 = originX s /\ originY s1 = originY s /\
     firstEvent s1 = firstEvent s /\
     lastX s1 = Num (Fin (clientX e)) /\ lastY s1 = Num (Fin (clientY e)) /\
     lastEvent s1 = Num (Fin now) /\
     snd (on_touchmove e now s) =
       fireSwipeEvent s (Num (Fin (clientX e))) (Num (Fin (clientY e)))
                      (Num (Fin now)) e) /\
    fst (on_touchend e now s) = s /\
    fst (on_touchcancel e now s) = s.
Proof.
  intros e now s. simpl. repeat split.
Qed.

(** ** The record of a [touchstart] *)

Ltac unfold_fire :=
  unfold dispatch, on_touchstart, on_touchmove, on_touchend, on_touchcancel,
    fireSwipeEvent;
  cbn [type clientX clientY fst snd ToNumber
       originX originY lastX lastY firstEvent lastEvent logEvents
       Detail.event Detail.eventTime Detail.duration Detail.initial
       Detail.ongoing Detail.cardinal4 Detail.cardinal8 Detail.theta
       Detail.originX Detail.originY Detail.currentX Detail.currentY
       Detail.totalDistanceX Detail.totalDistanceY Detail.totalDistance
       Detail.latestDistanceX Detail.latestDistanceY Detail.latestDistance
       Detail.overallSpeedX Detail.overallSpeedY Detail.overallSpeed
       Detail.latestSpeedX Detail.latestSpeedY Detail.latestSpeed].

(** C4: the record published for a [touchstart] has all four component
    distances (and both Euclidean distances) equal to 0, all six speeds equal
    to 0, duration 0, [initial] and [ongoing] true, and origin and current
    point equal to the touch point. *)
Theorem touchstart_record_is_zero :
  forall (x y now : R) (s : State),
    let d := snd (dispatch (mkTouchEvent touchstart x y) now s) in
    Detail.totalDistanceX d = Fin 0 /\ Detail.totalDistanceY d = Fin 0 /\
    Detail.latestDistanceX d = Fin 0 /\ Detail.latestDistanceY d = Fin 0 /\
    Detail.totalDistance d = Fin 0 /\ Detail.latestDistance d = Fin 0 /\
    Detail.overallSpeedX d = Fin 0 /\ Detail.overallSpeedY d = Fin 0 /\
    Detail.overallSpeed d = Fin 0 /\
    Detail.latestSpeedX d = Fin 0 /\ Detail.latestSpeedY d = Fin 0 /\
    Detail.latestSpeed d = Fin 0 /\
    Detail.duration d = Fin 0 /\
    Detail.initial d = true /\ Detail.ongoing d = true /\
    Detail.originX d = Num (Fin x) /\ Detail.originY d = Num (Fin y) /\
    Detail.currentX d = Num (Fin x) /\ Detail.currentY d = Num (Fin y) /\
    Detail.eventTime d = Num (Fin now).
Proof.
  intros x y now s d. subst d. unfold_fire.
  rewrite !sub_self, !abs_zero, !hypot_zero, !speed_of_zero_distance.
  repeat split.
Qed.

(** ** The record of a [touchend] or [touchcancel] *)

(** C10: for a [touchend] or [touchcancel] in a session that has seen a
    [touchstart], the published current point is the session's last point,
    whatever coordinates the event carries; the three latest distances and
    the three latest speeds are 0; and the session is left as it was. *)
Theorem terminal_record_uses_last_point :
  forall (e : TouchEvent) (now : R) (s : State),
    initialised s = true ->
    type e = touchend \/ type e = touchcancel ->
    let d := snd (dispatch e now s) in
    Detail.currentX d = lastX s /\ Detail.currentY d = lastY s /\
    Detail.latestDistanceX d = Fin 0 /\ Detail.latestDistanceY d = Fin 0 /\
    Detail.latestDistance d = Fin 0 /\
    Detail.latestSpeedX d = Fin 0 /\ Detail.latestSpeedY d = Fin 0 /\
    Detail.latestSpeed d = Fin 0 /\
    fst (dispatch e now s) = s.
Proof.
  intros e now s Hs Hty d. subst d.
  destruct (initialised_inv s Hs) as (ox & oy & lx & ly & t0 & t1 & Hox & Hoy & Hlx & Hly & Ht0 & Ht1).
  unfold dispatch.
  destruct Hty as [Hty | Hty]; rewrite Hty; unfold_fire;
    rewrite Hlx, Hly; cbn [ToNumber];
    rewrite !sub_self, !abs_zero, !hypot_zero, !speed_of_zero_distance;
    repeat split.
Qed.

Lemma terminal_record_uses_last_point_witness :
  initialised (started_at 3 4 0) = true /\
  Detail.currentX
    (snd (dispatch (mkTouchEvent touchend 100 200) 50 (started_at 3 4 0)))
  = Num (Fin 3).
Proof.
  split; [reflexivity | ].
  apply (terminal_record_uses_last_point
           (mkTouchEvent touchend 100 200) 50 (started_at 3 4 0) eq_refl
           (or_introl eq_refl)).
Defined.

(** ** The speed guard *)

(** No speed of any record is [NaN]: the guard replaces it by 0. *)
Lemma speeds_are_never_NaN (e : TouchEvent) (now : R) (s : State) :
  let d := snd (dispatch e now s) in
  Detail.overallSpeedX d <> NaN /\ Detail.overallSpeedY d <> NaN /\
  Detail.overallSpeed d <> NaN /\
  Detail.latestSpeedX d <> NaN /\ Detail.latestSpeedY d <> NaN /\
  Detail.latestSpeed d <> NaN.
Proof.
  unfold dispatch. destruct (type e); unfold_fire;
    repeat split; apply or_else_zero_not_NaN.
Qed.

(** C1, at a [touchmove] to (5, 0) that [Date.now()] puts in the millisecond
    of the [touchstart] at (0, 0): the duration and the time since the last
    event are 0, and the horizontal and Euclidean speeds, overall and latest,
    are [Infinity], not 0; only the vertical speeds, of distance 0, are 0. *)
Theorem move_in_start_millisecond_has_infinite_speed :
  let d := move_in_start_millisecond in
  Detail.duration d = Fin 0 /\
  Detail.totalDistanceX d = Fin 5 /\
  Detail.overallSpeedX d = PosInf /\ Detail.overallSpeed d = PosInf /\
  Detail.latestSpeedX d = PosInf /\ Detail.latestSpeed d = PosInf /\
  Detail.overallSpeedY d = Fin 0 /\ Detail.latestSpeedY d = Fin 0.
Proof.
  unfold move_in_start_millisecond, started_at. unfold_fire.
  rewrite !sub_self, !abs_zero.
  assert (H5 : Math.abs (sub (Fin 5) (Fin 0)) = Fin 5).
  { simpl. f_equal. replace (5 - 0) with 5 by lra. apply Rabs_right. lra. }
  assert (Hh : Math.hypot (Fin 5) (Fin 0) = Fin 5).
  { simpl. f_equal. replace (5 * 5 + 0 * 0) with (5 * 5) by lra.
    apply sqrt_square. lra. }
  rewrite H5, Hh, !speed_of_zero_distance.
  rewrite !speed_of_positive_distance_in_no_time by lra.
  repeat split.
Qed.

(** ** Every record is a call of [fireSwipeEvent] *)

(** The record a listener publishes is [fireSwipeEvent] at some state and
    some current point; in an initialised session that state is initialised
    and the point is finite. *)
Lemma dispatch_is_fire (e : TouchEvent) (now : R) (s : State) :
  exists (s1 : State) (cx cy : value),
    snd (dispatch e now s) = fireSwipeEvent s1 cx cy (Num (Fin now)) e /\
    (initialised s = true ->
     initialised s1 = true /\ is_finite cx = true /\ is_finite cy = true).
Proof.
  unfold dispatch. destruct (type e).
  - eexists _, _, _. split; [reflexivity | ]. intros _. repeat split.
  - exists s, (Num (Fin (clientX e))), (Num (Fin (clientY e))).
    split; [reflexivity | ]. intros Hs. repeat split. exact Hs.
  - exists s, (lastX s), (lastY s). split; [reflexivity | ]. intros Hs.
    destruct (initialised_inv s Hs) as (ox & oy & lx & ly & t0 & t1 & _ & _ & Hlx & Hly & _).
    rewrite Hlx, Hly. repeat split. exact Hs.
  - exists s, (lastX s), (lastY s). split; [reflexivity | ]. intros Hs.
    destruct (initialised_inv s Hs) as (ox & oy & lx & ly & t0 & t1 & _ & _ & Hlx & Hly & _).
    rewrite Hlx, Hly. repeat split. exact Hs.
Qed.

Lemma is_finite_inv (v : value) : is_finite v = true -> exists r, v = Num (Fin r).
Proof. destruct v as [ | [ | | | r]]; try discriminate. now exists r. Qed.

(** ** Distances *)

Lemma abs_sub_nonnegative (a b : R) : nonnegative (Math.abs (sub (Fin a) (Fin b))).
Proof. exists (Rabs (a - b)). split; [reflexivity | apply Rabs_pos]. Qed.

Lemma hypot_nonnegative (a b : number) :
  nonnegative a -> nonnegative b -> nonnegative (Math.hypot a b).
Proof.
  intros (x & -> & _) (y & -> & _).
  exists (sqrt (x * x + y * y)). split; [reflexivity | apply sqrt_pos].
Qed.

(** C8: in a session that has seen a [touchstart], every record has
    [totalDistance] equal to [Math.hypot] of its two total components,
    [latestDistance] equal to [Math.hypot] of its two latest components, and
    all six distances finite and not negative. *)
Theorem distances_are_hypot_and_nonnegative :
  forall (e : TouchEvent) (now : R) (s : State),
    initialised s = true ->
    let d := snd (dispatch e now s) in
    Detail.totalDistance d =
      Math.hypot (Detail.totalDistanceX d) (Detail.totalDistanceY d) /\
    Detail.latestDistance d =
      Math.hypot (Detail.latestDistanceX d) (Detail.latestDistanceY d) /\
    nonnegative (Detail.totalDistanceX d) /\
    nonnegative (Detail.totalDistanceY d) /\
    nonnegative (Detail.totalDistance d) /\
    nonnegative (Detail.latestDistanceX d) /\
    nonnegative (Detail.latestDistanceY d) /\
    nonnegative (Detail.latestDistance d).
Proof.
  intros e now s Hs d. subst d.
  destruct (dispatch_is_fire e now s) as (s1 & cx & cy & -> & Hfin).
  destruct (Hfin Hs) as (Hs1 & Hcx & Hcy).
  destruct (initialised_inv s1 Hs1) as (ox & oy & lx & ly & t0 & t1 & Hox & Hoy & Hlx & Hly & _).
  destruct (is_finite_inv cx Hcx) as (x & ->).
  destruct (is_finite_inv cy Hcy) as (y & ->).
  unfold_fire. rewrite Hox, Hoy, Hlx, Hly. cbn [ToNumber].
  repeat split;
    repeat (first [apply hypot_nonnegative | apply abs_sub_nonnegative]).
Qed.

Lemma distances_are_hypot_and_nonnegative_witness :
  initialised (started_at 0 0 0) = true /\
  nonnegative
    (Detail.totalDistance
       (snd (dispatch (mkTouchEvent touchmove 3 4) 10 (started_at 0 0 0)))).
Proof.
  split; [reflexivity | ].
  apply (distances_are_hypot_and_nonnegative
           (mkTouchEvent touchmove 3 4) 10 (started_at 0 0 0) eq_refl).
Defined.

(** ** Directions *)

Lemma between_iff (lo hi : R) (a : number) :
  gt a (Fin lo) && lt a (Fin hi) = true <-> strictly_between lo hi a.
Proof.
  destruct a as [ | | | r]; simpl; try (split; [discriminate | contradiction]).
  unfold gt. simpl. rewrite andb_true_iff, !Rltb_iff. reflexivity.
Qed.

Lemma not_between_iff (lo hi : R) (a : number) :
  gt a (Fin lo) && lt a (Fin hi) = false <-> ~ strictly_between lo hi a.
Proof.
  rewrite <- between_iff. destruct (gt a (Fin lo) && lt a (Fin hi)); split;
    intros H; auto; try discriminate. now contradiction H.
Qed.

(** The directions and the compass fields of [fireSwipeEvent]'s record. *)
Lemma fire_cardinals (s : State) (cx cy t : value) (e : TouchEvent) :
  let d := fireSwipeEvent s cx cy t e in
  Detail.cardinal4 d =
    (if gt (Detail.totalDistanceX d) (Detail.totalDistanceY d)
     then horizontalDir d else verticalDir d) /\
  Detail.cardinal8 d =
    (if gt (tangentDeg d) (Fin 22.5) && lt (tangentDeg d) (Fin 67.5)
     then String.append (verticalDir d) (horizontalDir d)
     else Detail.cardinal4 d).
Proof. split; reflexivity. Qed.

Lemma dispatch_cardinals (e : TouchEvent) (now : R) (s : State) :
  let d := snd (dispatch e now s) in
  Detail.cardinal4 d =
    (if gt (Detail.totalDistanceX d) (Detail.totalDistanceY d)
     then horizontalDir d else verticalDir d) /\
  Detail.cardinal8 d =
    (if gt (tangentDeg d) (Fin 22.5) && lt (tangentDeg d) (Fin 67.5)
     then String.append (verticalDir d) (horizontalDir d)
     else Detail.cardinal4 d).
Proof.
  destruct (dispatch_is_fire e now s) as (s1 & cx & cy & Hd & _).
  cbv zeta. rewrite Hd. apply fire_cardinals.
Qed.

(** C5: [cardinal4] is the horizontal direction ("W" when the origin's x
    is greater than the current x, else "E") when [totalDistanceX] is greater
    than [totalDistanceY], and the vertical direction ("N" when the origin's
    y is greater than the current y, else "S") otherwise; on a tie it is the
    vertical direction; it is always one of N, S, E, W. *)
Theorem cardinal4_prefers_vertical_on_ties :
  forall (e : TouchEvent) (now : R) (s : State),
    let d := snd (dispatch e now s) in
    Detail.cardinal4 d =
      (if gt (Detail.totalDistanceX d) (Detail.totalDistanceY d)
       then (if gt (ToNumber (Detail.originX d)) (ToNumber (Detail.currentX d))
             then "W" else "E")
       else (if gt (ToNumber (Detail.originY d)) (ToNumber (Detail.currentY d))
             then "N" else "S"))%string /\
    (Detail.totalDistanceX d = Detail.totalDistanceY d ->
     Detail.cardinal4 d = verticalDir d) /\
    In (Detail.cardinal4 d) ["N"; "S"; "E"; "W"]%string.
Proof.
  intros e now s d.
  destruct (dispatch_cardinals e now s) as [H4 _]. fold d in H4.
  split; [exact H4 | split].
  - intros Htie. rewrite H4, Htie, gt_irrefl. reflexivity.
  - rewrite H4. unfold horizontalDir, verticalDir.
    destruct (gt (Detail.totalDistanceX d) (Detail.totalDistanceY d));
      [destruct (gt (ToNumber (Detail.originX d)) (ToNumber (Detail.currentX d)))
      | destruct (gt (ToNumber (Detail.originY d)) (ToNumber (Detail.currentY d)))];
      simpl; auto.
Qed.

(** C6: [cardinal8] is the diagonal, vertical direction followed by
    horizontal direction, exactly when the angle
    [Math.atan2(totalDistanceY, totalDistanceX)] in degrees lies strictly
    between 22.5 and 67.5, and is [cardinal4] otherwise; at 22.5 and at 67.5
    it is [cardinal4]. *)
Theorem cardinal8_is_diagonal_strictly_inside :
  forall (e : TouchEvent) (now : R) (s : State),
    let d := snd (dispatch e now s) in
    let diagonal := String.append (verticalDir d) (horizontalDir d) in
    (Detail.cardinal8 d = diagonal <-> strictly_between 22.5 67.5 (tangentDeg d)) /\
    (~ strictly_between 22.5 67.5 (tangentDeg d) ->
     Detail.cardinal8 d = Detail.cardinal4 d) /\
    (tangentDeg d = Fin 22.5 \/ tangentDeg d = Fin 67.5 ->
     Detail.cardinal8 d = Detail.cardinal4 d).
Proof.
  intros e now s d diagonal.
  destruct (dispatch_cardinals e now s) as [H4 H8]. fold d in H4, H8.
  assert (Hout : ~ strictly_between 22.5 67.5 (tangentDeg d) ->
                 Detail.cardinal8 d = Detail.cardinal4 d).
  { intros Hn. apply not_between_iff in Hn. now rewrite H8, Hn. }
  split; [split | split].
  - intros Hdiag.
    destruct (gt (tangentDeg d) (Fin 22.5) && lt (tangentDeg d) (Fin 67.5)) eqn:Hb.
    + now apply between_iff.
    + exfalso. rewrite H8, H4 in Hdiag. subst diagonal.
      unfold horizontalDir, verticalDir in Hdiag.
      destruct (gt (Detail.totalDistanceX d) (Detail.totalDistanceY d)),
               (gt (ToNumber (Detail.originX d)) (ToNumber (Detail.currentX d))),
               (gt (ToNumber (Detail.originY d)) (ToNumber (Detail.currentY d)));
        discriminate.
  - intros Hin. apply between_iff in Hin. now rewrite H8, Hin.
  - exact Hout.
  - intros [Heq | Heq]; apply Hout; rewrite Heq; simpl; lra.
Qed.

(** ** The angle *)

Lemma deg_factor_pos : 0 < 180 / Rtrigo1.PI.
Proof. apply Rdiv_lt_0_compat; [lra | apply PI_RGT_0]. Qed.

Lemma deg_of_PI : Rtrigo1.PI * (180 / Rtrigo1.PI) = 180.
Proof. field. apply PI_neq0. Qed.

Lemma atan_pos (x : R) : 0 < x -> 0 < atan x.
Proof. intros H. rewrite <- atan_0. now apply atan_increasing. Qed.

(** Straight up: no horizontal displacement and a negative vertical one. *)
Lemma Ratan2_up (y : R) : y < 0 -> Math.Ratan2 y 0 = - (Rtrigo1.PI / 2).
Proof.
  intros Hy. unfold Math.Ratan2.
  destruct (Rlt_dec 0 0); [lra | ]. destruct (Rlt_dec 0 y); [lra | ].
  destruct (Rlt_dec y 0); [reflexivity | lra].
Qed.

Lemma fire_theta (s : State) (cx cy t : value) (e : TouchEvent) :
  let d := fireSwipeEvent s cx cy t e in
  Detail.theta d =
    degrees (if lt (radians d) (Fin 0)
             then add (radians d) (mul (Fin 2) Math.PI) else radians d) /\
  Detail.currentX d = cx /\ Detail.currentY d = cy /\
  Detail.originX d = originX s /\ Detail.originY d = originY s.
Proof. repeat split. Qed.

(** For a displacement straight up (no horizontal change, a negative
    vertical change) [theta] is 270, in every state. *)
Lemma theta_straight_up_is_270 (e : TouchEvent) (now : R) (s : State) (y : R) :
  let d := snd (dispatch e now s) in
  totalChangeInX d = Fin 0 -> totalChangeInY d = Fin y -> y < 0 ->
  Detail.theta d = Fin 270.
Proof.
  intros d. subst d.
  destruct (dispatch_is_fire e now s) as (s1 & cx & cy & -> & _).
  destruct (fire_theta s1 cx cy (Num (Fin now)) e) as (Hth & _).
  set (d := fireSwipeEvent s1 cx cy (Num (Fin now)) e) in *.
  intros H0 Hy Hlt. rewrite Hth. unfold radians. rewrite H0, Hy.
  cbn [Math.atan2]. rewrite (Ratan2_up y Hlt), two_PI.
  pose proof PI_RGT_0 as Hpi. cbn [lt]. rewrite Rltb_true by lra.
  cbn [add]. rewrite degrees_Fin. f_equal. field. lra.
Qed.

(** In binary64 the same displacement gives 270 as well: [Math.atan2]
    returns the binary64 value of minus a quarter turn. *)
Lemma theta_straight_up_is_270_in_binary64 :
  B64.theta_of_radians (S754_finite true 7074237752028440 (-52)%Z)
  = B64.of_Z 270%Z.
Proof. vm_compute. reflexivity. Qed.

(** C7, in binary64, at a [touchstart] at (100, 100.00000000000001) followed
    by a [touchmove] to (300, 100): the displacements are 200 and minus two
    to the power -46, the angle that [Math.atan2] returns for them is a
    negative number so small that adding a full turn rounds to the full
    turn, and the [theta] that is published is exactly 360: it is not in
    [0, 360). *)
Theorem theta_reaches_360_in_binary64 :
  B64.sub (B64.of_Z 300%Z) (B64.of_Z 100%Z) = B64.of_Z 200%Z /\
  B64.sub (B64.of_Z 100%Z) B64.next_above_100 = B64.minus_ulp_of_100 /\
  B64.div B64.minus_ulp_of_100 (B64.of_Z 200%Z) = B64.tiny_negative_angle /\
  B64.lt B64.tiny_negative_angle (B64.of_Z 0%Z) = true /\
  B64.add B64.tiny_negative_angle (B64.mul (B64.of_Z 2%Z) B64.PI)
    = B64.mul (B64.of_Z 2%Z) B64.PI /\
  B64.theta_of_radians B64.tiny_negative_angle = B64.of_Z 360%Z /\
  B64.lt (B64.theta_of_radians B64.tiny_negative_angle) (B64.of_Z 360%Z) = false.
Proof. vm_compute. repeat split. Qed.

(** The same holds if [Math.atan2] is off by one unit in the last place,
    either way. *)
Lemma theta_reaches_360_for_neighbouring_angles :
  B64.theta_of_radians (S754_finite true 5764607523034234 (-106)%Z)
    = B64.of_Z 360%Z /\
  B64.theta_of_radians (S754_finite true 5764607523034236 (-106)%Z)
    = B64.of_Z 360%Z.
Proof. vm_compute. split; reflexivity. Qed.

(** ** Worked gestures *)

Lemma abs_sub_of_le (a b : R) : b <= a -> Math.abs (sub (Fin a) (Fin b)) = Fin (a - b).
Proof. intros H. simpl. f_equal. apply Rabs_right. lra. Qed.

Lemma abs_sub_of_ge (a b : R) : a <= b -> Math.abs (sub (Fin a) (Fin b)) = Fin (b - a).
Proof. intros H. simpl. f_equal. rewrite Rabs_left1; lra. Qed.

Lemma hypot_axis_x (x : R) : 0 <= x -> Math.hypot (Fin x) (Fin 0) = Fin x.
Proof.
  intros H. simpl. f_equal. replace (x * x + 0 * 0) with (x * x) by lra.
  now apply sqrt_square.
Qed.

Lemma hypot_axis_y (y : R) : 0 <= y -> Math.hypot (Fin 0) (Fin y) = Fin y.
Proof.
  intros H. simpl. f_equal. replace (0 * 0 + y * y) with (y * y) by lra.
  now apply sqrt_square.
Qed.

Lemma speed_of_finite (x t : R) :
  x <> 0 -> t <> 0 -> or_else (div (Fin x) (Fin t)) (Fin 0) = Fin (x / t).
Proof.
  intros Hx Ht. unfold or_else. simpl. rewrite (Reqb_neq t 0 Ht). simpl.
  rewrite Reqb_neq; [reflexivity | ].
  unfold Rdiv. apply Rmult_integral_contrapositive_currified; auto.
  now apply Rinv_neq_0_compat.
Qed.

(** A [touchstart] at (100, 100) at time 0, then a [touchmove] to (150, 100)
    at time 100: 50 pixels east at half a pixel per millisecond. *)
Example move_east :
  let d := snd (dispatch (mkTouchEvent touchmove 150 100) 100 (started_at 100 100 0)) in
  Detail.totalDistanceX d = Fin 50 /\ Detail.totalDistanceY d = Fin 0 /\
  Detail.totalDistance d = Fin 50 /\
  Detail.cardinal4 d = "E"%string /\ Detail.cardinal8 d = "E"%string /\
  Detail.theta d = Fin 0 /\
  Detail.overallSpeed d = Fin 0.5 /\ Detail.latestSpeed d = Fin 0.5 /\
  Detail.initial d = false /\ Detail.ongoing d = true.
Proof.
  unfold started_at. unfold_fire.
  rewrite !sub_self, !abs_zero, (abs_sub_of_le 150 100) by lra.
  replace (150 - 100) with 50 by lra.
  rewrite (hypot_axis_x 50) by lra.
  replace (sub (Fin 100) (Fin 0)) with (Fin 100) by (simpl; f_equal; lra).
  rewrite !(speed_of_finite 50 100) by lra.
  replace (sub (Fin 150) (Fin 100)) with (Fin 50) by (simpl; f_equal; lra).
  assert (Hat : Math.atan2 (Fin 0) (Fin 50) = Fin 0).
  { simpl. f_equal. unfold Math.Ratan2. destruct (Rlt_dec 0 50); [ | lra].
    replace (0 / 50) with 0 by lra. apply atan_0. }
  rewrite Hat, deg_factor. cbn [mul gt lt].
  rewrite (Rltb_true 0 50), (Rltb_false 150 100), (Rltb_false 0 0) by lra.
  cbn [mul].
  replace (0 * (180 / Rtrigo1.PI)) with 0 by lra.
  rewrite (Rltb_false 22.5 0) by lra. cbn [andb].
  repeat split; try reflexivity; f_equal; lra.
Qed.

(** A [touchstart] at (0, 0) at time 0, then a [touchmove] to (0, -50) at
    time 50: straight up, which is north, at 270 degrees. *)
Example move_north :
  let d := snd (dispatch (mkTouchEvent touchmove 0 (-50)) 50 (started_at 0 0 0)) in
  Detail.totalDistanceX d = Fin 0 /\ Detail.totalDistanceY d = Fin 50 /\
  Detail.cardinal4 d = "N"%string /\ Detail.cardinal8 d = "N"%string /\
  Detail.theta d = Fin 270.
Proof.
  unfold started_at. unfold_fire.
  rewrite !sub_self, !abs_zero, (abs_sub_of_ge (-50) 0) by lra.
  replace (0 - -50) with 50 by lra.
  replace (sub (Fin (-50)) (Fin 0)) with (Fin (-50)) by (simpl; f_equal; lra).
  assert (Hat : Math.atan2 (Fin 50) (Fin 0) = Fin (Rtrigo1.PI / 2)).
  { simpl. f_equal. unfold Math.Ratan2. destruct (Rlt_dec 0 0); [lra | ].
    destruct (Rlt_dec 0 50); [reflexivity | lra]. }
  assert (Hup : Math.atan2 (Fin (-50)) (Fin 0) = Fin (- (Rtrigo1.PI / 2))).
  { simpl. f_equal. apply Ratan2_up. lra. }
  rewrite Hat, Hup, two_PI, deg_factor. cbn [mul gt lt add].
  pose proof PI_RGT_0 as Hpi.
  replace (Rtrigo1.PI / 2 * (180 / Rtrigo1.PI)) with 90 by (field; lra).
  rewrite (Rltb_false 0 0), (Rltb_true (-50) 0), (Rltb_true (- (Rtrigo1.PI / 2)) 0),
    (Rltb_false 90 67.5), (Rltb_false 50 0) by lra.
  rewrite andb_false_r. cbn [mul].
  repeat split. f_equal. field. lra.
Qed.

(** A [touchstart] at (0, 0), then a [touchmove] to (10, 10): an exact tie of
    the two distances, at 45 degrees; [cardinal4] is the vertical "S" and
    [cardinal8] the diagonal "SE". *)
Example move_south_east :
  let d := snd (dispatch (mkTouchEvent touchmove 10 10) 20 (started_at 0 0 0)) in
  Detail.totalDistanceX d = Detail.totalDistanceY d /\
  tangentDeg d = Fin 45 /\
  Detail.cardinal4 d = "S"%string /\ Detail.cardinal8 d = "SE"%string.
Proof.
  unfold tangentDeg, started_at. unfold_fire.
  rewrite (abs_sub_of_le 10 0) by lra.
  replace (10 - 0) with 10 by lra.
  assert (Hat : Math.atan2 (Fin 10) (Fin 10) = Fin (Rtrigo1.PI / 4)).
  { simpl. f_equal. unfold Math.Ratan2. destruct (Rlt_dec 0 10); [ | lra].
    replace (10 / 10) with 1 by lra. apply atan_1. }
  rewrite Hat, degrees_Fin, deg_factor. cbn [mul gt lt].
  pose proof PI_RGT_0 as Hpi.
  replace (Rtrigo1.PI / 4 * (180 / Rtrigo1.PI)) with 45 by (field; lra).
  rewrite (Rltb_false 10 10), (Rltb_false 10 0), (Rltb_true 22.5 45),
    (Rltb_true 45 67.5) by lra.
  repeat split.
Qed.

(** * Beyond the claims *)

(** ** Sequences of events *)

(** Handling [es1] and then [es2] is handling [es1 ++ es2]: the state is
    threaded through and the records come out in order. *)
Theorem run_app (es1 es2 : list (TouchEvent * R)) (s : State) :
  run (es1 ++ es2) s =
  (fst (run es2 (fst (run es1 s))),
   snd (run es1 s) ++ snd (run es2 (fst (run es1 s)))).
Proof.
  revert s. induction es1 as [ | [e now] rest IH]; intros s.
  - simpl. now destruct (run es2 s).
  - rewrite <- app_comm_cons, !run_cons, IH. reflexivity.
Qed.

(** X1: Every event publishes exactly one record, and the record carries the
    event it was published for, with the time it was handled at. *)
Theorem run_publishes_one_record_per_event (es : list (TouchEvent * R)) (s : State) :
  map (fun d => (Detail.event d, Detail.eventTime d)) (snd (run es s)) =
  map (fun en => (fst en, Num (Fin (snd en)))) es.
Proof.
  revert s. induction es as [ | [e now] rest IH]; intros s; [reflexivity | ].
  rewrite run_cons. cbn [snd fst map]. rewrite IH. f_equal.
  unfold dispatch. destruct (type e); reflexivity.
Qed.

Lemma dispatch_terminal_keeps_state (e : TouchEvent) (now : R) (s : State) :
  terminal (e, now) = true -> fst (dispatch e now s) = s.
Proof.
  unfold terminal, dispatch. cbn [fst]. destruct (type e); try discriminate; reflexivity.
Qed.

(** X2: [touchend] and [touchcancel] never change the session: the final state
    of a sequence is the final state of its [touchstart]s and [touchmove]s. *)
Theorem run_state_ignores_terminal_events (es : list (TouchEvent * R)) (s : State) :
  fst (run es s) = fst (run (filter (fun en => negb (terminal en)) es) s).
Proof.
  revert s. induction es as [ | [e now] rest IH]; intros s; [reflexivity | ].
  cbn [filter]. destruct (terminal (e, now)) eqn:Hterm; cbn [negb].
  - rewrite run_cons. cbn [fst].
    now rewrite (dispatch_terminal_keeps_state e now s Hterm).
  - rewrite !run_cons. cbn [fst]. apply IH.
Qed.

(** The listeners never touch the logging flag. *)
Lemma run_keeps_logEvents (es : list (TouchEvent * R)) (s : State) :
  logEvents (fst (run es s)) = logEvents s.
Proof.
  revert s. induction es as [ | [e now] rest IH]; intros s; [reflexivity | ].
  rewrite run_cons. cbn [fst]. rewrite IH. apply dispatch_keeps_logEvents.
Qed.

Lemma dispatch_toggle_commute (e : TouchEvent) (now : R) (s : State) :
  dispatch e now (fst (toggleTelemetryLogging s)) =
  (fst (toggleTelemetryLogging (fst (dispatch e now s))), snd (dispatch e now s)).
Proof. unfold dispatch. destruct (type e); reflexivity. Qed.

(** X3: Toggling the flag before a sequence of events or after it gives the same
    state and the same records: the flag plays no part in the telemetry. *)
Theorem run_toggle_commute (es : list (TouchEvent * R)) (s : State) :
  run es (fst (toggleTelemetryLogging s)) =
  (fst (toggleTelemetryLogging (fst (run es s))), snd (run es s)).
Proof.
  revert s. induction es as [ | [e now] rest IH]; intros s; [reflexivity | ].
  rewrite !run_cons, dispatch_toggle_commute. cbn [fst snd]. rewrite IH.
  reflexivity.
Qed.

Lemma run_records_ignore_flag (es : list (TouchEvent * R)) (s : State) :
  snd (run es (fst (toggleTelemetryLogging s))) = snd (run es s).
Proof.
  revert s. induction es as [ | [e now] rest IH]; intros s; [reflexivity | ].
  rewrite !run_cons, dispatch_toggle_commute. cbn [fst snd]. now rewrite IH.
Qed.

Lemma console_when_enabled (es : list (TouchEvent * R)) (s : State) :
  logEvents s = true -> console es s = snd (run es s).
Proof.
  revert s. induction es as [ | [e now] rest IH]; intros s Hs; [reflexivity | ].
  rewrite run_cons. cbn [console snd].
  pose proof (dispatch_keeps_logEvents e now s) as Hk.
  destruct (dispatch e now s) as [s1 d]. cbn [fst snd] in *.
  rewrite IH by congruence. unfold swipe_listener. now rewrite Hs.
Qed.

Lemma console_when_disabled (es : list (TouchEvent * R)) (s : State) :
  logEvents s = false -> console es s = [].
Proof.
  revert s. induction es as [ | [e now] rest IH]; intros s Hs; [reflexivity | ].
  cbn [console].
  pose proof (dispatch_keeps_logEvents e now s) as Hk.
  destruct (dispatch e now s) as [s1 d]. cbn [fst] in Hk.
  rewrite IH by congruence. unfold swipe_listener. now rewrite Hs.
Qed.

(** X4: The console echo: with the flag off nothing is sent to [console.debug];
    with the flag on every published record is, in order. *)
Theorem console_echoes_all_or_nothing (es : list (TouchEvent * R)) (s : State) :
  console es s = (if logEvents s then snd (run es s) else []).
Proof.
  destruct (logEvents s) eqn:Hs.
  - now apply console_when_enabled.
  - now apply console_when_disabled.
Qed.

(** ** Duration and speeds *)

(** The record of an event that is not a [touchstart] is computed in the
    state the listener found, at a current point that is the event's own for
    a [touchmove] and the session's last point otherwise. *)
Lemma dispatch_not_start_is_fire (e : TouchEvent) (now : R) (s : State) :
  not_start (e, now) = true ->
  exists cx cy : value,
    snd (dispatch e now s) = fireSwipeEvent s cx cy (Num (Fin now)) e /\
    (initialised s = true -> is_finite cx = true /\ is_finite cy = true).
Proof.
  intros Hns. apply not_start_type in Hns. unfold dispatch.
  destruct (type e); try contradiction.
  - exists (Num (Fin (clientX e))), (Num (Fin (clientY e))). repeat split.
  - exists (lastX s), (lastY s). split; [reflexivity | ]. intros Hs.
    destruct (initialised_inv s Hs) as (ox & oy & lx & ly & t0 & t1 & _ & _ & Hlx & Hly & _).
    now rewrite Hlx, Hly.
  - exists (lastX s), (lastY s). split; [reflexivity | ]. intros Hs.
    destruct (initialised_inv s Hs) as (ox & oy & lx & ly & t0 & t1 & _ & _ & Hlx & Hly & _).
    now rewrite Hlx, Hly.
Qed.

(** X5: The duration of every record after a [touchstart] counts from that
    [touchstart], however many moves, lifts and cancels came in between, and
    the record still shows that [touchstart]'s point as its origin. *)
Theorem duration_counts_from_latest_start :
  forall (s : State) (x y t : R) (es : list (TouchEvent * R))
         (e : TouchEvent) (now : R),
    forallb not_start es = true ->
    not_start (e, now) = true ->
    let s1 := fst (run ((mkTouchEvent touchstart x y, t) :: es) s) in
    let d := snd (dispatch e now s1) in
    Detail.duration d = Fin (now - t) /\
    Detail.originX d = Num (Fin x) /\ Detail.originY d = Num (Fin y).
Proof.
  intros s x y t es e now Hes He s1 d. subst d s1.
  rewrite run_cons. cbn [fst].
  set (s0 := fst (dispatch (mkTouchEvent touchstart x y) t s)).
  destruct (run_keeps_origin es s0 Hes) as (Hx & Hy & Ht).
  destruct (dispatch_not_start_is_fire e now (fst (run es s0)) He)
    as (cx & cy & -> & _).
  unfold fireSwipeEvent.
  cbn [Detail.duration Detail.originX Detail.originY].
  rewrite Hx, Hy, Ht. repeat split.
Qed.

Lemma duration_counts_from_latest_start_witness :
  forallb not_start demo_moves = true /\
  not_start (mkTouchEvent touchend 7 7, 40) = true /\
  Detail.duration
    (snd (dispatch (mkTouchEvent touchend 7 7) 40
            (fst (run ((mkTouchEvent touchstart 1 2, 5) :: demo_moves) init))))
  = Fin (40 - 5).
Proof.
  split; [reflexivity | split; [reflexivity | ]].
  apply (duration_counts_from_latest_start init 1 2 5 demo_moves
           (mkTouchEvent touchend 7 7) 40 eq_refl eq_refl).
Defined.

(** Where the time is not zero the guard changes nothing. *)
Lemma speed_guard_transparent (x t : R) :
  t <> 0 -> or_else (div (Fin x) (Fin t)) (Fin 0) = Fin (x / t).
Proof.
  intros Ht. destruct (Req_dec_T x 0) as [-> | Hx].
  - rewrite speed_of_zero_distance. f_equal. unfold Rdiv. lra.
  - now apply speed_of_finite.
Qed.

Lemma quotient_of_guard (a b : number) (x t : R) :
  a = Fin x -> b = Fin t -> t <> 0 ->
  quotient_of (or_else (div a b) (Fin 0)) a b.
Proof.
  intros -> -> Ht. exists x, t. repeat split; auto.
  now apply speed_guard_transparent.
Qed.

(** X6: In a session that has seen a [touchstart], for an event that is not a
    [touchstart]: when the duration is not 0, each overall speed is the
    quotient of its total distance by the duration; when the time since the
    last stored event is not 0, each latest speed is the quotient of its
    latest distance by that time. *)
Theorem speeds_are_distance_over_time :
  forall (e : TouchEvent) (now : R) (s : State),
    initialised s = true ->
    not_start (e, now) = true ->
    let d := snd (dispatch e now s) in
    (Detail.duration d <> Fin 0 ->
     quotient_of (Detail.overallSpeedX d) (Detail.totalDistanceX d) (Detail.duration d) /\
     quotient_of (Detail.overallSpeedY d) (Detail.totalDistanceY d) (Detail.duration d) /\
     quotient_of (Detail.overallSpeed d) (Detail.totalDistance d) (Detail.duration d)) /\
    (millisSinceLastEvent now s <> Fin 0 ->
     quotient_of (Detail.latestSpeedX d) (Detail.latestDistanceX d)
                 (millisSinceLastEvent now s) /\
     quotient_of (Detail.latestSpeedY d) (Detail.latestDistanceY d)
                 (millisSinceLastEvent now s) /\
     quotient_of (Detail.latestSpeed d) (Detail.latestDistance d)
                 (millisSinceLastEvent now s)).
Proof.
  intros e now s Hs He d. subst d.
  destruct (dispatch_not_start_is_fire e now s He) as (cx & cy & -> & Hfin).
  destruct (Hfin Hs) as (Hcx & Hcy).
  destruct (initialised_inv s Hs)
    as (ox & oy & lx & ly & t0 & t1 & Hox & Hoy & Hlx & Hly & Ht0 & Ht1).
  destruct (is_finite_inv cx Hcx) as (x & ->).
  destruct (is_finite_inv cy Hcy) as (y & ->).
  unfold millisSinceLastEvent. unfold_fire.
  rewrite Hox, Hoy, Hlx, Hly, Ht0, Ht1. cbn [ToNumber sub Math.abs Math.hypot].
  split; intros Hnz;
    (assert (Ht : forall a b : R, Fin (a - b) <> Fin 0 -> a - b <> 0)
       by (intros a b H E; apply H; now rewrite E));
    apply Ht in Hnz;
    repeat split; eapply quotient_of_guard; eauto.
Qed.

Lemma speeds_are_distance_over_time_witness :
  initialised (started_at 0 0 0) = true /\
  not_start (mkTouchEvent touchmove 3 4, 10) = true /\
  quotient_of
    (Detail.overallSpeedX (snd (dispatch (mkTouchEvent touchmove 3 4) 10 (started_at 0 0 0))))
    (Detail.totalDistanceX (snd (dispatch (mkTouchEvent touchmove 3 4) 10 (started_at 0 0 0))))
    (Detail.duration (snd (dispatch (mkTouchEvent touchmove 3 4) 10 (started_at 0 0 0)))).
Proof.
  split; [reflexivity | split; [reflexivity | ]].
  assert (Hnz : Detail.duration
                  (snd (dispatch (mkTouchEvent touchmove 3 4) 10 (started_at 0 0 0)))
                <> Fin 0).
  { cbn. intros H. injection H. lra. }
  exact (proj1 (proj1 (speeds_are_distance_over_time
                         (mkTouchEvent touchmove 3 4) 10 (started_at 0 0 0)
                         eq_refl eq_refl) Hnz)).
Defined.

Lemma guard_nonnegative (a b : number) (t : R) :
  nonnegative a -> b = Fin t -> 0 < t ->
  nonnegative (or_else (div a b) (Fin 0)).
Proof.
  intros (x & -> & Hx) -> Ht. rewrite speed_guard_transparent by lra.
  exists (x / t). split; [reflexivity | ].
  apply Rmult_le_pos; [exact Hx | ]. left. now apply Rinv_0_lt_compat.
Qed.

(** X7: In a session that has seen a [touchstart], for an event that is not a
    [touchstart] and is handled at a time after both the first and the last
    stored time, all six speeds are finite and not negative. *)
Theorem speeds_nonnegative_when_time_advances :
  forall (e : TouchEvent) (now : R) (s : State),
    initialised s = true ->
    not_start (e, now) = true ->
    lt (ToNumber (firstEvent s)) (Fin now) = true ->
    lt (ToNumber (lastEvent s)) (Fin now) = true ->
    let d := snd (dispatch e now s) in
    nonnegative (Detail.overallSpeedX d) /\ nonnegative (Detail.overallSpeedY d) /\
    nonnegative (Detail.overallSpeed d) /\
    nonnegative (Detail.latestSpeedX d) /\ nonnegative (Detail.latestSpeedY d) /\
    nonnegative (Detail.latestSpeed d).
Proof.
  intros e now s Hs He Hfirst Hlast d. subst d.
  destruct (dispatch_not_start_is_fire e now s He) as (cx & cy & -> & Hfin).
  destruct (Hfin Hs) as (Hcx & Hcy).
  destruct (initialised_inv s Hs)
    as (ox & oy & lx & ly & t0 & t1 & Hox & Hoy & Hlx & Hly & Ht0 & Ht1).
  destruct (is_finite_inv cx Hcx) as (x & ->).
  destruct (is_finite_inv cy Hcy) as (y & ->).
  rewrite Ht0 in Hfirst. rewrite Ht1 in Hlast. cbn in Hfirst, Hlast.
  apply Rltb_iff in Hfirst. apply Rltb_iff in Hlast.
  unfold_fire. rewrite Hox, Hoy, Hlx, Hly, Ht0, Ht1. cbn [ToNumber].
  repeat split;
    (eapply guard_nonnegative;
     [ repeat (first [apply hypot_nonnegative | apply abs_sub_nonnegative])
     | reflexivity | lra ]).
Qed.

Lemma speeds_nonnegative_when_time_advances_witness :
  initialised (started_at 0 0 0) = true /\
  not_start (mkTouchEvent touchmove 3 4, 10) = true /\
  nonnegative
    (Detail.overallSpeed
       (snd (dispatch (mkTouchEvent touchmove 3 4) 10 (started_at 0 0 0)))).
Proof.
  split; [reflexivity | split; [reflexivity | ]].
  assert (H : lt (Fin 0) (Fin 10) = true) by (apply Rltb_true; lra).
  apply (speeds_nonnegative_when_time_advances
           (mkTouchEvent touchmove 3 4) 10 (started_at 0 0 0) eq_refl eq_refl H H).
Defined.

(** X8: [Date.now()] can step back.  For an event that is not a [touchstart] and
    is handled at a time before the stored first time, a total horizontal
    distance that is not 0 is published with a negative [overallSpeedX]. *)
Theorem overall_speed_negative_when_clock_steps_back :
  forall (e : TouchEvent) (now : R) (s : State),
    initialised s = true ->
    not_start (e, now) = true ->
    lt (Fin now) (ToNumber (firstEvent s)) = true ->
    let d := snd (dispatch e now s) in
    Detail.totalDistanceX d <> Fin 0 ->
    lt (Detail.overallSpeedX d) (Fin 0) = true.
Proof.
  intros e now s Hs He Hback d. subst d.
  destruct (dispatch_not_start_is_fire e now s He) as (cx & cy & -> & Hfin).
  destruct (Hfin Hs) as (Hcx & Hcy).
  destruct (initialised_inv s Hs)
    as (ox & oy & lx & ly & t0 & t1 & Hox & Hoy & Hlx & Hly & Ht0 & Ht1).
  destruct (is_finite_inv cx Hcx) as (x & ->).
  destruct (is_finite_inv cy Hcy) as (y & ->).
  rewrite Ht0 in Hback. cbn in Hback. apply Rltb_iff in Hback.
  unfold_fire. rewrite Hox, Ht0. cbn [ToNumber sub Math.abs].
  intros Hnz. rewrite speed_guard_transparent by lra. cbn [lt].
  apply Rltb_true.
  assert (Hpos : 0 < Rabs (x - ox)).
  { apply Rabs_pos_lt. intros E. apply Hnz. now rewrite E, Rabs_R0. }
  assert (Hinv : / (now - t0) < 0) by (apply Rinv_lt_0_compat; lra).
  unfold Rdiv. nra.
Qed.

Lemma overall_speed_negative_when_clock_steps_back_witness :
  initialised (started_at 0 0 100) = true /\
  not_start (mkTouchEvent touchmove 3 4, 90) = true /\
  lt (Detail.overallSpeedX
        (snd (dispatch (mkTouchEvent touchmove 3 4) 90 (started_at 0 0 100))))
     (Fin 0) = true.
Proof.
  split; [reflexivity | split; [reflexivity | ]].
  assert (H : lt (Fin 90) (Fin 100) = true) by (apply Rltb_true; lra).
  apply (overall_speed_negative_when_clock_steps_back
           (mkTouchEvent touchmove 3 4) 90 (started_at 0 0 100) eq_refl eq_refl H).
  cbn. intros E. injection E. unfold Rabs. destruct (Rcase_abs (3 - 0)); lra.
Defined.

(** ** Angles of finite displacements *)

Lemma Ratan2_first_quadrant (y x : R) :
  0 <= y -> 0 <= x -> 0 <= Math.Ratan2 y x <= Rtrigo1.PI / 2.
Proof.
  intros Hy Hx. pose proof PI_RGT_0 as Hpi. unfold Math.Ratan2.
  destruct (Rlt_dec 0 x) as [Hx' | Hx'].
  - pose proof (atan_bound (y / x)) as Hb.
    destruct Hy as [Hy | <-].
    + assert (0 < y / x) by (apply Rdiv_lt_0_compat; lra).
      pose proof (atan_pos (y / x)). lra.
    + replace (0 / x) with 0 by (unfold Rdiv; lra). rewrite atan_0. lra.
  - destruct (Rlt_dec x 0); [lra | ].
    destruct (Rlt_dec 0 y); [lra | ]. destruct (Rlt_dec y 0); lra.
Qed.

Lemma Ratan2_pos_of_pos (y x : R) : 0 < y -> 0 <= x -> 0 < Math.Ratan2 y x.
Proof.
  intros Hy Hx. pose proof PI_RGT_0 as Hpi. unfold Math.Ratan2.
  destruct (Rlt_dec 0 x) as [Hx' | Hx'].
  - apply atan_pos. apply Rdiv_lt_0_compat; lra.
  - destruct (Rlt_dec x 0); [lra | ]. destruct (Rlt_dec 0 y); lra.
Qed.

(** The angle of a displacement from the angle of its absolute values, by
    quadrant. *)
Lemma Ratan2_by_quadrant (y x : R) :
  Math.Ratan2 y x =
  (if Rlt_dec y 0
   then (if Rlt_dec x 0
         then Math.Ratan2 (Rabs y) (Rabs x) - Rtrigo1.PI
         else - Math.Ratan2 (Rabs y) (Rabs x))
   else (if Rlt_dec x 0
         then Rtrigo1.PI - Math.Ratan2 (Rabs y) (Rabs x)
         else Math.Ratan2 (Rabs y) (Rabs x))).
Proof.
  destruct (Rlt_dec y 0) as [Hy | Hy]; destruct (Rlt_dec x 0) as [Hx | Hx].
  - rewrite (Rabs_left y Hy), (Rabs_left x Hx). unfold Math.Ratan2.
    destruct (Rlt_dec 0 x); [lra | ]. destruct (Rlt_dec x 0); [ | lra].
    destruct (Rlt_dec y 0); [ | lra]. destruct (Rlt_dec 0 (- x)); [ | lra].
    replace (- y / - x) with (y / x) by (field; lra). lra.
  - rewrite (Rabs_left y Hy), (Rabs_right x) by lra. unfold Math.Ratan2.
    destruct (Rlt_dec 0 x) as [Hx' | Hx'].
    + replace (y / x) with (- (- y / x)) by (field; lra).
      now rewrite atan_opp.
    + destruct (Rlt_dec x 0); [lra | ]. destruct (Rlt_dec 0 y); [lra | ].
      destruct (Rlt_dec y 0); [ | lra]. destruct (Rlt_dec 0 (- y)); lra.
  - rewrite (Rabs_right y), (Rabs_left x Hx) by lra. unfold Math.Ratan2.
    destruct (Rlt_dec 0 x); [lra | ]. destruct (Rlt_dec x 0); [ | lra].
    destruct (Rlt_dec y 0); [lra | ]. destruct (Rlt_dec 0 (- x)); [ | lra].
    replace (y / x) with (- (y / - x)) by (field; lra).
    rewrite atan_opp. lra.
  - rewrite (Rabs_right y), (Rabs_right x) by lra. reflexivity.
Qed.

Lemma tangent_of_range (dy dx : R) : 0 <= tangent_of dy dx <= 90.
Proof.
  unfold tangent_of.
  pose proof (Ratan2_first_quadrant (Rabs dy) (Rabs dx) (Rabs_pos dy) (Rabs_pos dx)) as Hq.
  pose proof deg_factor_pos as Hk. pose proof deg_of_PI as HkPI.
  set (a := Math.Ratan2 (Rabs dy) (Rabs dx)) in *.
  set (k := 180 / Rtrigo1.PI) in *. nra.
Qed.

(** [theta] from [tangent], by quadrant: the reference angle of [theta] is
    [tangent]. *)
Lemma theta_of_by_quadrant (dy dx : R) :
  theta_of dy dx =
  (if Rlt_dec dy 0
   then (if Rlt_dec dx 0 then 180 + tangent_of dy dx else 360 - tangent_of dy dx)
   else (if Rlt_dec dx 0 then 180 - tangent_of dy dx else tangent_of dy dx)).
Proof.
  unfold theta_of, tangent_of. rewrite (Ratan2_by_quadrant dy dx).
  pose proof (Ratan2_first_quadrant (Rabs dy) (Rabs dx) (Rabs_pos dy) (Rabs_pos dx)) as Hq.
  pose proof PI_RGT_0 as Hpi. pose proof PI_neq0 as Hpi0.
  set (a := Math.Ratan2 (Rabs dy) (Rabs dx)) in *.
  destruct (Rlt_dec dy 0) as [Hy | Hy]; destruct (Rlt_dec dx 0) as [Hx | Hx].
  - destruct (Rlt_dec (a - Rtrigo1.PI) 0); [field; lra | lra].
  - assert (0 < a).
    { apply Ratan2_pos_of_pos; [ | apply Rabs_pos]. apply Rabs_pos_lt. lra. }
    destruct (Rlt_dec (- a) 0); [field; lra | lra].
  - destruct (Rlt_dec (Rtrigo1.PI - a) 0); [lra | field; lra].
  - destruct (Rlt_dec a 0); [lra | reflexivity].
Qed.

Lemma atan_lt_quarter (z : R) : z < 1 -> atan z < Rtrigo1.PI / 4.
Proof. intros H. rewrite <- atan_1. now apply atan_increasing. Qed.

Lemma atan_ge_quarter (z : R) : 1 <= z -> Rtrigo1.PI / 4 <= atan z.
Proof.
  intros [H | <-].
  - left. rewrite <- atan_1. now apply atan_increasing.
  - rewrite atan_1. lra.
Qed.

(** The horizontal distance is the greater one exactly below 45 degrees,
    a displacement of zero apart, whose angle is 0. *)
Lemma tangent_of_threshold (dy dx : R) :
  (Rabs dy < Rabs dx -> tangent_of dy dx < 45) /\
  (Rabs dx <= Rabs dy -> 0 < Rabs dy -> 45 <= tangent_of dy dx) /\
  (Rabs dx = 0 -> Rabs dy = 0 -> tangent_of dy dx = 0).
Proof.
  unfold tangent_of. pose proof (Rabs_pos dy) as Hb. pose proof (Rabs_pos dx) as Ha.
  set (b := Rabs dy) in *. set (a := Rabs dx) in *.
  pose proof deg_factor_pos as Hk. pose proof deg_of_PI as HkPI.
  pose proof PI_RGT_0 as Hpi.
  set (k := 180 / Rtrigo1.PI) in *.
  repeat split.
  - intros Hlt. unfold Math.Ratan2. destruct (Rlt_dec 0 a); [ | lra].
    assert (b / a < 1).
    { apply (Rmult_lt_reg_r a); [lra | ]. unfold Rdiv.
      rewrite Rmult_assoc, Rinv_l by lra. lra. }
    pose proof (atan_lt_quarter (b / a)). nra.
  - intros Hle Hpos. unfold Math.Ratan2. destruct (Rlt_dec 0 a) as [Ha' | Ha'].
    + assert (1 <= b / a).
      { apply (Rmult_le_reg_r a); [lra | ]. unfold Rdiv.
        rewrite Rmult_assoc, Rinv_l by lra. lra. }
      pose proof (atan_ge_quarter (b / a)). nra.
    + destruct (Rlt_dec a 0); [lra | ]. destruct (Rlt_dec 0 b); [nra | lra].
  - intros Ha0 Hb0. rewrite Ha0, Hb0. unfold Math.Ratan2.
    destruct (Rlt_dec 0 0); [lra | ]. lra.
Qed.

(** The direction fields of a record for finite origin and current point,
    in terms of the signed displacements. *)
Lemma fire_finite (s : State) (ox oy x y : R) (t : value) (e : TouchEvent) :
  originX s = Num (Fin ox) -> originY s = Num (Fin oy) ->
  let d := fireSwipeEvent s (Num (Fin x)) (Num (Fin y)) t e in
  let dx := x - ox in
  let dy := y - oy in
  Detail.totalDistanceX d = Fin (Rabs dx) /\
  Detail.totalDistanceY d = Fin (Rabs dy) /\
  tangentDeg d = Fin (tangent_of dy dx) /\
  Detail.theta d = Fin (theta_of dy dx) /\
  horizontalDir d = (if Rlt_dec dx 0 then "W" else "E")%string /\
  verticalDir d = (if Rlt_dec dy 0 then "N" else "S")%string /\
  Detail.cardinal4 d =
    (if Rlt_dec (Rabs dy) (Rabs dx) then horizontalDir d else verticalDir d) /\
  Detail.cardinal8 d =
    (if Rlt_dec 22.5 (tangent_of dy dx)
     then (if Rlt_dec (tangent_of dy dx) 67.5
           then String.append (verticalDir d) (horizontalDir d)
           else Detail.cardinal4 d)
     else Detail.cardinal4 d).
Proof.
  intros Hox Hoy d dx dy.
  assert (Htx : Detail.totalDistanceX d = Fin (Rabs dx)).
  { subst d. unfold_fire. now rewrite Hox. }
  assert (Hty : Detail.totalDistanceY d = Fin (Rabs dy)).
  { subst d. unfold_fire. now rewrite Hoy. }
  assert (Htan : tangentDeg d = Fin (tangent_of dy dx)).
  { unfold tangentDeg. rewrite Htx, Hty. cbn [Math.atan2]. apply degrees_Fin. }
  assert (Hh : horizontalDir d = (if Rlt_dec dx 0 then "W" else "E")%string).
  { unfold horizontalDir. subst d. unfold_fire. rewrite Hox. cbn [ToNumber gt lt].
    unfold Rltb. subst dx.
    destruct (Rlt_dec x ox), (Rlt_dec (x - ox) 0); try reflexivity; lra. }
  assert (Hv : verticalDir d = (if Rlt_dec dy 0 then "N" else "S")%string).
  { unfold verticalDir. subst d. unfold_fire. rewrite Hoy. cbn [ToNumber gt lt].
    unfold Rltb. subst dy.
    destruct (Rlt_dec y oy), (Rlt_dec (y - oy) 0); try reflexivity; lra. }
  destruct (fire_cardinals s (Num (Fin x)) (Num (Fin y)) t e) as [H4 H8].
  fold d in H4, H8.
  repeat split; auto.
  - destruct (fire_theta s (Num (Fin x)) (Num (Fin y)) t e) as (Hth & _).
    fold d in Hth. rewrite Hth. unfold radians, totalChangeInX, totalChangeInY.
    subst d. unfold_fire. rewrite Hox, Hoy. cbn [ToNumber sub Math.atan2].
    rewrite two_PI. cbn [lt]. unfold theta_of, Rltb. fold dx dy.
    destruct (Rlt_dec (Math.Ratan2 dy dx) 0); cbn [add]; apply degrees_Fin.
  - rewrite H4, Htx, Hty. unfold gt. cbn [lt]. unfold Rltb.
    destruct (Rlt_dec (Rabs dy) (Rabs dx)); reflexivity.
  - rewrite H8, Htan. unfold gt. cbn [lt]. unfold Rltb.
    destruct (Rlt_dec 22.5 (tangent_of dy dx)), (Rlt_dec (tangent_of dy dx) 67.5);
      reflexivity.
Qed.

(** The same for the record of any event in an initialised session. *)
Lemma dispatch_finite (e : TouchEvent) (now : R) (s : State) :
  initialised s = true ->
  let d := snd (dispatch e now s) in
  exists dx dy : R,
    Detail.totalDistanceX d = Fin (Rabs dx) /\
    Detail.totalDistanceY d = Fin (Rabs dy) /\
    tangentDeg d = Fin (tangent_of dy dx) /\
    Detail.theta d = Fin (theta_of dy dx) /\
    horizontalDir d = (if Rlt_dec dx 0 then "W" else "E")%string /\
    verticalDir d = (if Rlt_dec dy 0 then "N" else "S")%string /\
    Detail.cardinal4 d =
      (if Rlt_dec (Rabs dy) (Rabs dx) then horizontalDir d else verticalDir d) /\
    Detail.cardinal8 d =
      (if Rlt_dec 22.5 (tangent_of dy dx)
       then (if Rlt_dec (tangent_of dy dx) 67.5
             then String.append (verticalDir d) (horizontalDir d)
             else Detail.cardinal4 d)
       else Detail.cardinal4 d).
Proof.
  intros Hs d. subst d.
  destruct (dispatch_is_fire e now s) as (s1 & cx & cy & -> & Hfin).
  destruct (Hfin Hs) as (Hs1 & Hcx & Hcy).
  destruct (initialised_inv s1 Hs1) as (ox & oy & lx & ly & t0 & t1 & Hox & Hoy & _).
  destruct (is_finite_inv cx Hcx) as (x & ->).
  destruct (is_finite_inv cy Hcy) as (y & ->).
  exists (x - ox), (y - oy). now apply fire_finite.
Qed.

(** The same with the origin and the current point of the record. *)
Lemma dispatch_finite_points (e : TouchEvent) (now : R) (s : State) :
  initialised s = true ->
  let d := snd (dispatch e now s) in
  exists ox oy cx cy : R,
    Detail.originX d = Num (Fin ox) /\ Detail.originY d = Num (Fin oy) /\
    Detail.currentX d = Num (Fin cx) /\ Detail.currentY d = Num (Fin cy) /\
    tangentDeg d = Fin (tangent_of (cy - oy) (cx - ox)) /\
    Detail.theta d = Fin (theta_of (cy - oy) (cx - ox)) /\
    horizontalDir d = (if Rlt_dec (cx - ox) 0 then "W" else "E")%string /\
    verticalDir d = (if Rlt_dec (cy - oy) 0 then "N" else "S")%string /\
    Detail.cardinal4 d =
      (if Rlt_dec (Rabs (cy - oy)) (Rabs (cx - ox))
       then horizontalDir d else verticalDir d) /\
    Detail.cardinal8 d =
      (if Rlt_dec 22.5 (tangent_of (cy - oy) (cx - ox))
       then (if Rlt_dec (tangent_of (cy - oy) (cx - ox)) 67.5
             then String.append (verticalDir d) (horizontalDir d)
             else Detail.cardinal4 d)
       else Detail.cardinal4 d).
Proof.
  intros Hs d. subst d.
  destruct (dispatch_is_fire e now s) as (s1 & cx & cy & -> & Hfin).
  destruct (Hfin Hs) as (Hs1 & Hcx & Hcy).
  destruct (initialised_inv s1 Hs1) as (ox & oy & lx & ly & t0 & t1 & Hox & Hoy & _).
  destruct (is_finite_inv cx Hcx) as (x & ->).
  destruct (is_finite_inv cy Hcy) as (y & ->).
  exists ox, oy, x, y.
  destruct (fire_theta s1 (Num (Fin x)) (Num (Fin y)) (Num (Fin now)) e)
    as (_ & Hcx' & Hcy' & Hox' & Hoy').
  destruct (fire_finite s1 ox oy x y (Num (Fin now)) e Hox Hoy)
    as (_ & _ & Htan & Hth & Hh & Hv & H4 & H8).
  rewrite Hox', Hoy', Hox, Hoy. repeat split; assumption.
Qed.

(** On an axis the first-quadrant angle is 0 or 90 degrees. *)
Lemma tangent_of_axis (dy dx : R) :
  (dy = 0 -> tangent_of dy dx = 0) /\
  (dx = 0 -> dy <> 0 -> tangent_of dy dx = 90).
Proof.
  unfold tangent_of, Math.Ratan2. split.
  - intros ->. rewrite Rabs_R0.
    destruct (Rlt_dec 0 (Rabs dx)).
    + replace (0 / Rabs dx) with 0 by (unfold Rdiv; lra). rewrite atan_0. lra.
    + destruct (Rlt_dec (Rabs dx) 0); [pose proof (Rabs_pos dx); lra | ].
      destruct (Rlt_dec 0 0); lra.
  - intros -> Hy. rewrite Rabs_R0. pose proof (Rabs_pos_lt dy Hy) as Hpos.
    destruct (Rlt_dec 0 0); [lra | ].
    destruct (Rlt_dec 0 (Rabs dy)); [ | lra].
    field. apply PI_neq0.
Qed.

(** ** Compass fields against [theta] *)

(** X10: [cardinal8] is always one of the eight compass points. *)
Theorem cardinal8_is_a_compass_point :
  forall (e : TouchEvent) (now : R) (s : State),
    In (Detail.cardinal8 (snd (dispatch e now s)))
       ["N"; "S"; "E"; "W"; "NE"; "NW"; "SE"; "SW"]%string.
Proof.
  intros e now s. destruct (dispatch_cardinals e now s) as [H4 H8].
  set (d := snd (dispatch e now s)) in *.
  rewrite H8, H4. unfold horizontalDir, verticalDir.
  destruct (gt (tangentDeg d) (Fin 22.5) && lt (tangentDeg d) (Fin 67.5)),
           (gt (Detail.totalDistanceX d) (Detail.totalDistanceY d)),
           (gt (ToNumber (Detail.originX d)) (ToNumber (Detail.currentX d))),
           (gt (ToNumber (Detail.originY d)) (ToNumber (Detail.currentY d)));
    simpl; tauto.
Qed.

(** X11: In a session that has seen a [touchstart], [theta] lies in the
    quarter turn that the two direction letters of the record name: from 0
    to 90 degrees for south and east, from 90 to 180 for south and west,
    from 180 to 270 for north and west, from 270 to 360 for north and
    east. *)
Theorem theta_lies_in_the_quadrant_of_the_direction_letters :
  forall (e : TouchEvent) (now : R) (s : State),
    initialised s = true ->
    let d := snd (dispatch e now s) in
    exists t : R,
      Detail.theta d = Fin t /\
      (verticalDir d = "S"%string -> horizontalDir d = "E"%string ->
       0 <= t <= 90) /\
      (verticalDir d = "S"%string -> horizontalDir d = "W"%string ->
       90 <= t <= 180) /\
      (verticalDir d = "N"%string -> horizontalDir d = "W"%string ->
       180 <= t <= 270) /\
      (verticalDir d = "N"%string -> horizontalDir d = "E"%string ->
       270 <= t <= 360).
Proof.
  intros e now s Hs d.
  destruct (dispatch_finite e now s Hs)
    as (dx & dy & _ & _ & _ & Hth & Hh & Hv & _).
  fold d in Hth, Hh, Hv.
  exists (theta_of dy dx). split; [exact Hth | ].
  rewrite Hh, Hv, theta_of_by_quadrant.
  pose proof (tangent_of_range dy dx) as Hr.
  destruct (Rlt_dec dy 0), (Rlt_dec dx 0);
    (split; [ | split; [ | split]]); intros Hv' Hh'; try discriminate; lra.
Qed.

Lemma theta_lies_in_the_quadrant_of_the_direction_letters_witness :
  initialised (started_at 0 0 0) = true /\
  exists t : R,
    Detail.theta (snd (dispatch (mkTouchEvent touchmove (-3) 4) 10 (started_at 0 0 0)))
      = Fin t.
Proof.
  split; [reflexivity | ].
  destruct (theta_lies_in_the_quadrant_of_the_direction_letters
              (mkTouchEvent touchmove (-3) 4) 10 (started_at 0 0 0) eq_refl)
    as (t & Ht & _).
  exists t. exact Ht.
Defined.

(** X12: In a session that has seen a [touchstart], [cardinal4] never points
    against the motion: "E" is published only when the current point is to
    the right of the origin, "W" only when it is to the left, "N" only when
    it is above, and "S" only when it is not above. *)
Theorem cardinal4_never_points_against_the_motion :
  forall (e : TouchEvent) (now : R) (s : State),
    initialised s = true ->
    let d := snd (dispatch e now s) in
    exists ox oy cx cy : R,
      Detail.originX d = Num (Fin ox) /\ Detail.originY d = Num (Fin oy) /\
      Detail.currentX d = Num (Fin cx) /\ Detail.currentY d = Num (Fin cy) /\
      (Detail.cardinal4 d = "E"%string -> ox < cx) /\
      (Detail.cardinal4 d = "W"%string -> cx < ox) /\
      (Detail.cardinal4 d = "N"%string -> cy < oy) /\
      (Detail.cardinal4 d = "S"%string -> oy <= cy).
Proof.
  intros e now s Hs d.
  destruct (dispatch_finite_points e now s Hs)
    as (ox & oy & cx & cy & Hox & Hoy & Hcx & Hcy & _ & _ & Hh & Hv & H4 & _).
  fold d in Hox, Hoy, Hcx, Hcy, Hh, Hv, H4.
  exists ox, oy, cx, cy. repeat (split; [assumption | ]).
  rewrite H4, Hh, Hv.
  pose proof (Rabs_pos (cy - oy)) as Hay.
  destruct (Rlt_dec (Rabs (cy - oy)) (Rabs (cx - ox))) as [Hlt | Hge],
           (Rlt_dec (cx - ox) 0), (Rlt_dec (cy - oy) 0);
    (split; [ | split; [ | split]]); intros Hc; try discriminate; try lra.
  all: assert (cx - ox <> 0)
    by (intros E; rewrite E, Rabs_R0 in Hlt; lra); lra.
Qed.

Lemma cardinal4_never_points_against_the_motion_witness :
  initialised (started_at 0 0 0) = true /\
  exists ox : R,
    Detail.originX (snd (dispatch (mkTouchEvent touchmove 5 1) 10 (started_at 0 0 0)))
      = Num (Fin ox).
Proof.
  split; [reflexivity | ].
  destruct (cardinal4_never_points_against_the_motion
              (mkTouchEvent touchmove 5 1) 10 (started_at 0 0 0) eq_refl)
    as (ox & oy & cx & cy & Hox & _).
  exists ox. exact Hox.
Defined.

(** X13: In a session that has seen a [touchstart], a diagonal [cardinal8]
    names the quadrant of the motion, with both displacements different
    from zero: "SE" is published only when the current point is to the right
    of and below the origin, "SW" only to the left and below, "NW" only to
    the left and above, "NE" only to the right and above. *)
Theorem diagonal_cardinal8_names_the_quadrant_of_the_motion :
  forall (e : TouchEvent) (now : R) (s : State),
    initialised s = true ->
    let d := snd (dispatch e now s) in
    exists ox oy cx cy : R,
      Detail.originX d = Num (Fin ox) /\ Detail.originY d = Num (Fin oy) /\
      Detail.currentX d = Num (Fin cx) /\ Detail.currentY d = Num (Fin cy) /\
      (Detail.cardinal8 d = "SE"%string -> ox < cx /\ oy < cy) /\
      (Detail.cardinal8 d = "SW"%string -> cx < ox /\ oy < cy) /\
      (Detail.cardinal8 d = "NW"%string -> cx < ox /\ cy < oy) /\
      (Detail.cardinal8 d = "NE"%string -> ox < cx /\ cy < oy).
Proof.
  intros e now s Hs d.
  destruct (dispatch_finite_points e now s Hs)
    as (ox & oy & cx & cy & Hox & Hoy & Hcx & Hcy & _ & _ & Hh & Hv & H4 & H8).
  fold d in Hox, Hoy, Hcx, Hcy, Hh, Hv, H4, H8.
  exists ox, oy, cx, cy. repeat (split; [assumption | ]).
  destruct (tangent_of_axis (cy - oy) (cx - ox)) as (Hy0 & Hx0).
  assert (Hsingle : forall c : string,
            Detail.cardinal4 d = c -> String.length c = 1%nat).
  { intros c <-. rewrite H4, Hh, Hv.
    destruct (Rlt_dec (Rabs (cy - oy)) (Rabs (cx - ox))),
             (Rlt_dec (cx - ox) 0), (Rlt_dec (cy - oy) 0); reflexivity. }
  rewrite H8.
  destruct (Rlt_dec 22.5 (tangent_of (cy - oy) (cx - ox))) as [Hlo | Hlo];
    [destruct (Rlt_dec (tangent_of (cy - oy) (cx - ox)) 67.5) as [Hhi | Hhi] | ].
  - assert (Hdy : cy - oy <> 0) by (intros E; specialize (Hy0 E); lra).
    assert (Hdx : cx - ox <> 0) by (intros E; specialize (Hx0 E Hdy); lra).
    rewrite Hh, Hv.
    destruct (Rlt_dec (cx - ox) 0), (Rlt_dec (cy - oy) 0);
      (split; [ | split; [ | split]]); cbn [append]; intros Hc;
      try discriminate; lra.
  - split; [ | split; [ | split]]; intros Hc;
      apply Hsingle in Hc; discriminate.
  - split; [ | split; [ | split]]; intros Hc;
      apply Hsingle in Hc; discriminate.
Qed.

Lemma diagonal_cardinal8_names_the_quadrant_of_the_motion_witness :
  initialised (started_at 0 0 0) = true /\
  exists ox : R,
    Detail.originX (snd (dispatch (mkTouchEvent touchmove 5 5) 10 (started_at 0 0 0)))
      = Num (Fin ox).
Proof.
  split; [reflexivity | ].
  destruct (diagonal_cardinal8_names_the_quadrant_of_the_motion
              (mkTouchEvent touchmove 5 5) 10 (started_at 0 0 0) eq_refl)
    as (ox & oy & cx & cy & Hox & _).
  exists ox. exact Hox.
Defined.

Lemma abs_sub_zero_inv (a b : number) :
  Math.abs (sub a b) = Fin 0 -> exists p, a = Fin p /\ b = Fin p.
Proof.
  destruct a as [ | | | p], b as [ | | | q]; simpl; try discriminate.
  intros H. injection H as H. exists p. split; [reflexivity | ].
  f_equal. destruct (Req_dec_T (p - q) 0) as [E | N]; [lra | ].
  apply Rabs_pos_lt in N. lra.
Qed.

Lemma ToNumber_Fin_inv (v : value) (p : R) : ToNumber v = Fin p -> v = Num (Fin p).
Proof. destruct v; simpl; [discriminate | now intros ->]. Qed.

(** X14: A record without displacement, in any state: when both total distances
    are 0, [cardinal4] and [cardinal8] are "S" and [theta] is 0, which is
    east.  This is the record of every [touchstart] and of every tap. *)
Theorem no_displacement_is_south_at_theta_zero :
  forall (e : TouchEvent) (now : R) (s : State),
    let d := snd (dispatch e now s) in
    Detail.totalDistanceX d = Fin 0 ->
    Detail.totalDistanceY d = Fin 0 ->
    Detail.cardinal4 d = "S"%string /\ Detail.cardinal8 d = "S"%string /\
    Detail.theta d = Fin 0.
Proof.
  intros e now s d Hx0 Hy0. subst d.
  destruct (dispatch_is_fire e now s) as (s1 & cx & cy & Hd & _).
  rewrite Hd in *. clear Hd.
  assert (Hx := Hx0). assert (Hy := Hy0).
  unfold fireSwipeEvent in Hx, Hy.
  cbn [Detail.totalDistanceX Detail.totalDistanceY] in Hx, Hy.
  apply abs_sub_zero_inv in Hx. destruct Hx as (p & Hcx & Hox).
  apply abs_sub_zero_inv in Hy. destruct Hy as (q & Hcy & Hoy).
  apply ToNumber_Fin_inv in Hcx, Hox, Hcy, Hoy. subst cx cy.
  destruct (fire_finite s1 p q p q (Num (Fin now)) e Hox Hoy)
    as (_ & _ & _ & Hth & Hh & Hv & H4 & H8).
  replace (p - p) with 0 in * by lra. replace (q - q) with 0 in * by lra.
  destruct (tangent_of_threshold 0 0) as (_ & _ & Hzero).
  rewrite Rabs_R0 in *. specialize (Hzero eq_refl eq_refl).
  rewrite Hzero in H8.
  destruct (Rlt_dec 0 0); [lra | ]. destruct (Rlt_dec 22.5 0); [lra | ].
  rewrite H8, H4, Hv, Hth. repeat split. f_equal.
  rewrite theta_of_by_quadrant. destruct (Rlt_dec 0 0); [lra | exact Hzero].
Qed.

Lemma no_displacement_is_south_at_theta_zero_witness :
  Detail.totalDistanceX (snd (dispatch (mkTouchEvent touchstart 7 9) 3 init)) = Fin 0 /\
  Detail.totalDistanceY (snd (dispatch (mkTouchEvent touchstart 7 9) 3 init)) = Fin 0 /\
  Detail.cardinal4 (snd (dispatch (mkTouchEvent touchstart 7 9) 3 init)) = "S"%string.
Proof.
  assert (Hx : Detail.totalDistanceX (snd (dispatch (mkTouchEvent touchstart 7 9) 3 init))
               = Fin 0).
  { unfold_fire. now rewrite sub_self, abs_zero. }
  assert (Hy : Detail.totalDistanceY (snd (dispatch (mkTouchEvent touchstart 7 9) 3 init))
               = Fin 0).
  { unfold_fire. now rewrite sub_self, abs_zero. }
  split; [exact Hx | split; [exact Hy | ]].
  exact (proj1 (no_displacement_is_south_at_theta_zero
                  (mkTouchEvent touchstart 7 9) 3 init Hx Hy)).
Defined.

(** ** Before the first [touchstart] *)

Lemma sub_NaN_r (a : number) : sub a NaN = NaN.
Proof. now destruct a. Qed.

Lemma hypot_NaN : Math.hypot NaN NaN = NaN.
Proof. reflexivity. Qed.

Lemma fire_blind (s : State) (cx cy t : value) (e : TouchEvent) :
  never_started s = true -> blind_record (fireSwipeEvent s cx cy t e).
Proof.
  unfold never_started. intros Hs.
  destruct (originX s) eqn:Hox; try discriminate.
  destruct (originY s) eqn:Hoy; try discriminate.
  destruct (firstEvent s) eqn:Ht0; try discriminate.
  unfold blind_record, fireSwipeEvent.
  cbn [Detail.originX Detail.originY Detail.totalDistanceX Detail.totalDistanceY
       Detail.totalDistance Detail.duration Detail.overallSpeedX
       Detail.overallSpeedY Detail.overallSpeed Detail.cardinal4
       Detail.cardinal8 Detail.theta].
  rewrite Hox, Hoy, Ht0. cbn [ToNumber]. rewrite !sub_NaN_r.
  assert (Hgt : forall a, gt NaN a = false) by (now intros [ | | | r]).
  rewrite !Hgt. repeat split.
Qed.

Lemma dispatch_keeps_never_started (e : TouchEvent) (now : R) (s : State) :
  not_start (e, now) = true -> never_started s = true ->
  never_started (fst (dispatch e now s)) = true.
Proof.
  intros He Hs. apply not_start_type in He.
  destruct (dispatch_keeps_origin e now s He) as (Hx & Hy & Ht).
  unfold never_started in *. now rewrite Hx, Hy, Ht.
Qed.

(** X15: As long as no [touchstart] has been handled, every event still publishes
    a record, and every such record has an undefined origin, [NaN] for the
    total distances, the duration and [theta], 0 for the overall speeds, and
    "S" for both compass fields. *)
Theorem records_before_first_start_are_blind :
  forall (es : list (TouchEvent * R)) (s : State),
    never_started s = true ->
    forallb not_start es = true ->
    List.length (snd (run es s)) = List.length es /\
    Forall blind_record (snd (run es s)).
Proof.
  induction es as [ | [e now] rest IH]; intros s Hs Hes.
  - split; [reflexivity | constructor].
  - simpl in Hes. apply andb_true_iff in Hes. destruct Hes as [He Hrest].
    rewrite run_cons. cbn [snd List.length].
    destruct (IH (fst (dispatch e now s))
                 (dispatch_keeps_never_started e now s He Hs) Hrest) as [Hlen Hall].
    split; [now rewrite Hlen | ].
    constructor; [ | exact Hall].
    destruct (dispatch_not_start_is_fire e now s He) as (cx & cy & -> & _).
    now apply fire_blind.
Qed.

Lemma records_before_first_start_are_blind_witness :
  never_started init = true /\
  forallb not_start demo_moves = true /\
  Forall blind_record (snd (run demo_moves init)).
Proof.
  split; [reflexivity | split; [reflexivity | ]].
  apply (records_before_first_start_are_blind demo_moves init eq_refl eq_refl).
Defined.

Lemma run_stays_uninitialised (es : list (TouchEvent * R)) :
  forall s, originX s = Undefined ->
  initialised (fst (run es s)) = existsb is_start es.
Proof.
  induction es as [ | [e now] rest IH]; intros s Hox.
  - simpl. unfold initialised. now rewrite Hox.
  - rewrite run_cons. cbn [fst existsb].
    destruct (is_start (e, now)) eqn:He; cbn [orb].
    + apply run_keeps_initialised. unfold is_start in He. cbn [fst] in He.
      unfold dispatch. destruct (type e); try discriminate. reflexivity.
    + apply IH.
      assert (Hty : type e <> touchstart).
      { intros E. unfold is_start in He. cbn [fst] in He. rewrite E in He. discriminate. }
      destruct (dispatch_keeps_origin e now s Hty) as (Hx & _). now rewrite Hx.
Qed.

(** X16: From the freshly loaded script, the session is initialised exactly when
    some [touchstart] has been handled. *)
Theorem initialised_iff_some_touchstart (es : list (TouchEvent * R)) :
  initialised (fst (run es init)) = existsb is_start es.
Proof. now apply run_stays_uninitialised. Qed.

(** ** Distances *)

Lemma norm2_nonneg (a b : R) : 0 <= norm2 a b.
Proof. apply sqrt_pos. Qed.

Lemma norm2_sqr (a b : R) : norm2 a b * norm2 a b = a * a + b * b.
Proof. unfold norm2. apply sqrt_sqrt. nra. Qed.

Lemma norm2_abs (a b : R) : norm2 (Rabs a) (Rabs b) = norm2 a b.
Proof.
  unfold norm2. f_equal.
  assert (H : forall x, Rabs x * Rabs x = x * x).
  { intros x. unfold Rabs. destruct (Rcase_abs x); lra. }
  now rewrite !H.
Qed.

Lemma norm2_bounds (a b : R) :
  0 <= a -> 0 <= b -> a <= norm2 a b /\ b <= norm2 a b /\ norm2 a b <= a + b.
Proof.
  intros Ha Hb. pose proof (norm2_nonneg a b) as Hc.
  pose proof (norm2_sqr a b) as Hsq.
  set (c := norm2 a b) in *. repeat split; nra.
Qed.

Lemma hypot_abs_sub (x ox y oy : R) :
  Math.hypot (Math.abs (sub (Fin x) (Fin ox))) (Math.abs (sub (Fin y) (Fin oy)))
  = Fin (norm2 (x - ox) (y - oy)).
Proof. cbn. f_equal. apply norm2_abs. Qed.

Lemma between_components_of_sub (x ox y oy : R) :
  between_components
    (Math.abs (sub (Fin x) (Fin ox))) (Math.abs (sub (Fin y) (Fin oy)))
    (Math.hypot (Math.abs (sub (Fin x) (Fin ox))) (Math.abs (sub (Fin y) (Fin oy)))).
Proof.
  rewrite hypot_abs_sub.
  exists (Rabs (x - ox)), (Rabs (y - oy)), (norm2 (x - ox) (y - oy)).
  pose proof (Rabs_pos (x - ox)) as Ha. pose proof (Rabs_pos (y - oy)) as Hb.
  rewrite <- (norm2_abs (x - ox) (y - oy)).
  destruct (norm2_bounds _ _ Ha Hb) as (H1 & H2 & H3).
  repeat split; auto.
Qed.

(** X17: In a session that has seen a [touchstart], the Euclidean distance of
    every record lies between its components and their sum, for the total
    and for the latest distances: neither component is greater than the
    Euclidean distance, and the Euclidean distance is not greater than the
    sum of the two. *)
Theorem euclidean_distance_lies_between_its_components :
  forall (e : TouchEvent) (now : R) (s : State),
    initialised s = true ->
    let d := snd (dispatch e now s) in
    between_components (Detail.totalDistanceX d) (Detail.totalDistanceY d)
                       (Detail.totalDistance d) /\
    between_components (Detail.latestDistanceX d) (Detail.latestDistanceY d)
                       (Detail.latestDistance d).
Proof.
  intros e now s Hs d. subst d.
  destruct (dispatch_is_fire e now s) as (s1 & cx & cy & -> & Hfin).
  destruct (Hfin Hs) as (Hs1 & Hcx & Hcy).
  destruct (initialised_inv s1 Hs1) as (ox & oy & lx & ly & t0 & t1 & Hox & Hoy & Hlx & Hly & _).
  destruct (is_finite_inv cx Hcx) as (x & ->).
  destruct (is_finite_inv cy Hcy) as (y & ->).
  unfold_fire. rewrite Hox, Hoy, Hlx, Hly. cbn [ToNumber].
  split; apply between_components_of_sub.
Qed.

Lemma euclidean_distance_lies_between_its_components_witness :
  initialised (started_at 0 0 0) = true /\
  between_components
    (Detail.totalDistanceX (snd (dispatch (mkTouchEvent touchmove 3 4) 10 (started_at 0 0 0))))
    (Detail.totalDistanceY (snd (dispatch (mkTouchEvent touchmove 3 4) 10 (started_at 0 0 0))))
    (Detail.totalDistance (snd (dispatch (mkTouchEvent touchmove 3 4) 10 (started_at 0 0 0)))).
Proof.
  split; [reflexivity | ].
  apply (euclidean_distance_lies_between_its_components
           (mkTouchEvent touchmove 3 4) 10 (started_at 0 0 0) eq_refl).
Defined.

Lemma run_terminal_keeps_state (es : list (TouchEvent * R)) (s : State) :
  forallb terminal es = true -> fst (run es s) = s.
Proof.
  revert s. induction es as [ | [e now] rest IH]; intros s Hes; [reflexivity | ].
  simpl in Hes. apply andb_true_iff in Hes. destruct Hes as [He Hrest].
  rewrite run_cons. cbn [fst].
  rewrite (dispatch_terminal_keeps_state e now s He). now apply IH.
Qed.

(** X18: After a [touchstart], and after any number of [touchend]s and
    [touchcancel]s that follow it, the next record measures its latest
    distances and speeds from the origin: each latest distance equals the
    total distance and each latest speed equals the overall speed. *)
Theorem first_record_after_touchstart_has_latest_equal_to_total :
  forall (s : State) (x y t : R) (es : list (TouchEvent * R))
         (e : TouchEvent) (now : R),
    forallb terminal es = true ->
    let s1 := fst (run ((mkTouchEvent touchstart x y, t) :: es) s) in
    let d := snd (dispatch e now s1) in
    Detail.latestDistanceX d = Detail.totalDistanceX d /\
    Detail.latestDistanceY d = Detail.totalDistanceY d /\
    Detail.latestDistance d = Detail.totalDistance d /\
    Detail.latestSpeedX d = Detail.overallSpeedX d /\
    Detail.latestSpeedY d = Detail.overallSpeedY d /\
    Detail.latestSpeed d = Detail.overallSpeed d.
Proof.
  intros s x y t es e now Hes s1 d. subst d s1.
  rewrite run_cons. cbn [fst].
  rewrite (run_terminal_keeps_state es _ Hes).
  unfold dispatch at 2. cbn [type on_touchstart fst].
  unfold dispatch. destruct (type e); repeat split.
Qed.

Lemma first_record_after_touchstart_has_latest_equal_to_total_witness :
  forallb terminal [(mkTouchEvent touchend 9 9, 20)] = true /\
  Detail.latestDistance
    (snd (dispatch (mkTouchEvent touchmove 3 4) 30
            (fst (run [(mkTouchEvent touchstart 0 0, 10);
                       (mkTouchEvent touchend 9 9, 20)] init))))
  = Detail.totalDistance
      (snd (dispatch (mkTouchEvent touchmove 3 4) 30
              (fst (run [(mkTouchEvent touchstart 0 0, 10);
                         (mkTouchEvent touchend 9 9, 20)] init)))).
Proof.
  split; [reflexivity | ].
  apply (first_record_after_touchstart_has_latest_equal_to_total
           init 0 0 10 [(mkTouchEvent touchend 9 9, 20)]
           (mkTouchEvent touchmove 3 4) 30 eq_refl).
Defined.

(** ** Version 1.0 against version 1.1 *)

Lemma v10_run_cons (e : V10.TouchEvent) (now : R)
    (rest : list (V10.TouchEvent * R)) (s : V10.State) :
  V10.run ((e, now) :: rest) s =
  (fst (V10.run rest (fst (V10.dispatch e now s))),
   match snd (V10.dispatch e now s) with
   | Some d => d :: snd (V10.run rest (fst (V10.dispatch e now s)))
   | None => snd (V10.run rest (fst (V10.dispatch e now s)))
   end).
Proof.
  simpl. destruct (V10.dispatch e now s) as [s1 od]. simpl.
  destruct (V10.run rest s1) as [s2 ds]. reflexivity.
Qed.

(** X20: Version 1.0 publishes nothing for a [touchstart] and one record for
    every other event. *)
Theorem v10_publishes_no_record_for_touchstart :
  forall (es : list (V10.TouchEvent * R)) (s : V10.State),
    List.length (snd (V10.run es s)) =
    List.length (filter (fun en => negb (V10.is_start en)) es).
Proof.
  induction es as [ | [e now] rest IH]; intros s; [reflexivity | ].
  rewrite v10_run_cons. cbn [snd filter].
  unfold V10.is_start at 1. cbn [fst]. unfold V10.dispatch.
  destruct (V10.type e);
    unfold V10.on_touchstart, V10.on_touchmove, V10.on_touchend, V10.on_touchcancel;
    cbn [EventType_eqb negb snd fst List.length];
    now rewrite IH.
Qed.

(** X21: Version 1.0 has no guard: a tap whose [touchend] is handled in the
    millisecond of its [touchstart], at the same point, publishes [NaN] for
    all six speeds. *)
Theorem v10_tap_in_one_millisecond_has_NaN_speeds :
  forall (x y t : R) (s : V10.State),
    let s1 := fst (V10.dispatch (V10.mkTouchEvent touchstart x y) t s) in
    exists d : V10.Detail.t,
      snd (V10.dispatch (V10.mkTouchEvent touchend x y) t s1) = Some d /\
      V10.Detail.duration d = Fin 0 /\
      V10.Detail.totalSpeedX d = NaN /\ V10.Detail.totalSpeedY d = NaN /\
      V10.Detail.totalSpeed d = NaN /\
      V10.Detail.latestSpeedX d = NaN /\ V10.Detail.latestSpeedY d = NaN /\
      V10.Detail.latestSpeed d = NaN.
Proof.
  intros x y t s s1. eexists. split; [reflexivity | ].
  unfold V10.fireSwipeEvent.
  cbn [V10.Detail.duration V10.Detail.totalSpeedX V10.Detail.totalSpeedY
       V10.Detail.totalSpeed V10.Detail.latestSpeedX V10.Detail.latestSpeedY
       V10.Detail.latestSpeed].
  subst s1. unfold V10.dispatch. cbn [V10.type V10.on_touchstart fst
    V10.touchStartX V10.touchStartY V10.lastTouchX V10.lastTouchY
    V10.firstEventTime V10.lastEventTime V10.screenX V10.screenY ToNumber].
  rewrite !sub_self, !abs_zero, !hypot_zero.
  assert (H00 : div (Fin 0) (Fin 0) = NaN) by (simpl; now rewrite !Reqb_refl).
  rewrite H00. repeat split.
Qed.

(** X22: Version 1.1 keeps the session exactly as version 1.0 did: after any
    event, and so after any sequence of events, the six tracking variables
    and the flag hold the same values in both. *)
Theorem v11_session_simulates_v10 :
  forall (es : list (V10.TouchEvent * R)) (s : V10.State),
    of_v10_state (fst (V10.run es s)) =
    fst (run (map (fun en => (of_v10_event (fst en), snd en)) es) (of_v10_state s)).
Proof.
  induction es as [ | [e now] rest IH]; intros s; [reflexivity | ].
  rewrite v10_run_cons. cbn [map fst snd]. rewrite run_cons. cbn [fst].
  rewrite IH. f_equal. f_equal.
  unfold V10.dispatch, dispatch, of_v10_event. cbn [type].
  destruct (V10.type e); reflexivity.
Qed.

(** X23: For a [touchmove], and for a [touchend] or [touchcancel] that carries
    the last stored point, version 1.1 publishes what version 1.0 published:
    the same origin, point, time, duration, distances, [ongoing] flag and
    compass fields, and each speed of version 1.0 passed through the guard
    [|| 0]. *)
Theorem v11_record_extends_v10_record :
  forall (e : V10.TouchEvent) (now : R) (s : V10.State),
    V10.is_start (e, now) = false ->
    V10.type e = touchmove \/
    (V10.lastTouchX s = Num (Fin (V10.screenX e)) /\
     V10.lastTouchY s = Num (Fin (V10.screenY e))) ->
    let d11 := snd (dispatch (of_v10_event e) now (of_v10_state s)) in
    exists d10 : V10.Detail.t,
      snd (V10.dispatch e now s) = Some d10 /\
      Detail.eventTime d11 = V10.Detail.eventTime d10 /\
      Detail.duration d11 = V10.Detail.duration d10 /\
      Detail.ongoing d11 = V10.Detail.ongoing d10 /\
      Detail.cardinal4 d11 = V10.Detail.cardinal4dir d10 /\
      Detail.cardinal8 d11 = V10.Detail.cardinal8dir d10 /\
      Detail.originX d11 = V10.Detail.touchStartX d10 /\
      Detail.originY d11 = V10.Detail.touchStartY d10 /\
      Detail.currentX d11 = V10.Detail.touchEndX d10 /\
      Detail.currentY d11 = V10.Detail.touchEndY d10 /\
      Detail.totalDistanceX d11 = V10.Detail.totalDistanceX d10 /\
      Detail.totalDistanceY d11 = V10.Detail.totalDistanceY d10 /\
      Detail.totalDistance d11 = V10.Detail.totalDistance d10 /\
      Detail.latestDistanceX d11 = V10.Detail.latestDistanceX d10 /\
      Detail.latestDistanceY d11 = V10.Detail.latestDistanceY d10 /\
      Detail.latestDistance d11 = V10.Detail.latestDistance d10 /\
      Detail.overallSpeedX d11 = or_else (V10.Detail.totalSpeedX d10) (Fin 0) /\
      Detail.overallSpeedY d11 = or_else (V10.Detail.totalSpeedY d10) (Fin 0) /\
      Detail.overallSpeed d11 = or_else (V10.Detail.totalSpeed d10) (Fin 0) /\
      Detail.latestSpeedX d11 = or_else (V10.Detail.latestSpeedX d10) (Fin 0) /\
      Detail.latestSpeedY d11 = or_else (V10.Detail.latestSpeedY d10) (Fin 0) /\
      Detail.latestSpeed d11 = or_else (V10.Detail.latestSpeed d10) (Fin 0).
Proof.
  intros e now s Hns Hpt d11. subst d11.
  unfold V10.is_start in Hns. cbn [fst] in Hns.
  unfold V10.dispatch, dispatch, of_v10_event. cbn [type].
  destruct (V10.type e) eqn:Hty; try discriminate.
  - eexists. split; [reflexivity | ]. repeat split.
  - destruct Hpt as [Hmv | [Hlx Hly]]; [discriminate | ].
    eexists. split; [reflexivity | ].
    unfold on_touchend, V10.on_touchend, of_v10_state. cbn [snd lastX lastY].
    rewrite Hlx, Hly. repeat split.
    all: unfold fireSwipeEvent, V10.fireSwipeEvent;
      cbn -[sub div mul add lt gt Math.abs Math.hypot Math.atan2 or_else];
      rewrite ?Hlx, ?Hly; reflexivity.
  - destruct Hpt as [Hmv | [Hlx Hly]]; [discriminate | ].
    eexists. split; [reflexivity | ].
    unfold on_touchcancel, V10.on_touchcancel, of_v10_state. cbn [snd lastX lastY].
    rewrite Hlx, Hly. repeat split.
    all: unfold fireSwipeEvent, V10.fireSwipeEvent;
      cbn -[sub div mul add lt gt Math.abs Math.hypot Math.atan2 or_else];
      rewrite ?Hlx, ?Hly; reflexivity.
Qed.

Lemma v11_record_extends_v10_record_witness :
  V10.is_start (V10.mkTouchEvent touchmove 3 4, 10) = false /\
  exists d10 : V10.Detail.t,
    snd (V10.dispatch (V10.mkTouchEvent touchmove 3 4) 10 V10.init) = Some d10 /\
    Detail.eventTime
      (snd (dispatch (of_v10_event (V10.mkTouchEvent touchmove 3 4)) 10
              (of_v10_state V10.init)))
    = V10.Detail.eventTime d10.
Proof.
  split; [reflexivity | ].
  destruct (v11_record_extends_v10_record
              (V10.mkTouchEvent touchmove 3 4) 10 V10.init eq_refl
              (or_introl eq_refl)) as (d10 & H1 & H2 & _).
  exists d10. split; [exact H1 | exact H2].
Defined.

(** ** The demonstration page *)

Lemma half_height (h : R) : div (Fin h) (Fin 2) = Fin (h / 2).
Proof. simpl. rewrite Reqb_neq; [reflexivity | lra]. Qed.

(** The current point of a record is the session's last point once the
    listener has run, for every kind of event and in every state. *)
Lemma current_point_is_last_point (e : TouchEvent) (now : R) (s : State) :
  Detail.currentX (snd (dispatch e now s)) = lastX (fst (dispatch e now s)) /\
  Detail.currentY (snd (dispatch e now s)) = lastY (fst (dispatch e now s)).
Proof. unfold dispatch. destruct (type e); split; reflexivity. Qed.

(** X24: After every touch event on the page the cross is displayed, and when
    the session's last point is finite the cross has its middle there: it
    follows the finger on a [touchstart] and a [touchmove], and it stays
    where it is on a [touchend] or [touchcancel], whatever coordinates that
    event carries.  When a coordinate of the last point is not a finite
    number (no [touchstart] or [touchmove] has been handled yet), the
    assignment is no length and [left] or [top] keeps the value it had. *)
Theorem demo_cross_sits_at_last_point :
  forall (offsetHeight : Demo.ElemId -> R) (e : TouchEvent) (now : R)
         (s : State) (p : Demo.Page),
    let sp := Demo.handle offsetHeight e now (s, p) in
    Demo.display (snd sp Demo.cross) = Some "block"%string /\
    Demo.left (snd sp Demo.cross) =
      (if is_finite (lastX (fst sp))
       then Some (sub (ToNumber (lastX (fst sp)))
                      (Fin (offsetHeight Demo.cross / 2)))
       else Demo.left (p Demo.cross)) /\
    Demo.top (snd sp Demo.cross) =
      (if is_finite (lastY (fst sp))
       then Some (sub (ToNumber (lastY (fst sp)))
                      (Fin (offsetHeight Demo.cross / 2)))
       else Demo.top (p Demo.cross)) /\
    (initialised (fst sp) = true ->
     snd sp Demo.cross =
       Demo.centred_at (offsetHeight Demo.cross)
         (ToNumber (lastX (fst sp))) (ToNumber (lastY (fst sp)))) /\
    (terminal (e, now) = true -> fst sp = s).
Proof.
  intros oh e now s p sp. subst sp. unfold Demo.handle. cbn [fst snd].
  destruct (current_point_is_last_point e now s) as [Hx Hy].
  pose proof (dispatch_terminal_keeps_state e now s) as Hterm.
  destruct (dispatch e now s) as [s1 d]. cbn [fst snd] in *.
  assert (Hold : (if Detail.initial d
                  then Demo.centerOnTouch oh Demo.compass (Demo.SwipeEvent d) p
                  else p) Demo.cross = p Demo.cross).
  { destruct (Detail.initial d); reflexivity. }
  unfold Demo.on_swipe.
  set (p1 := if Detail.initial d
             then Demo.centerOnTouch oh Demo.compass (Demo.SwipeEvent d) p
             else p) in *.
  unfold Demo.centerOnTouch at 1 2 3 4. cbn [Demo.ElemId_eqb Demo.display Demo.left Demo.top].
  rewrite Hold, half_height, Hx, Hy.
  split; [reflexivity | ].
  split; [destruct (lastX s1) as [ | [ | | | lx]]; reflexivity | ].
  split; [destruct (lastY s1) as [ | [ | | | ly]]; reflexivity | ].
  split; [ | exact Hterm].
  intros Hs1.
  destruct (initialised_inv s1 Hs1) as (ox & oy & lx & ly & t0 & t1 & _ & _ & Hlx & Hly & _).
  rewrite Hlx, Hly. reflexivity.
Qed.

Lemma demo_handle_keeps_compass (oh : Demo.ElemId -> R) (e : TouchEvent)
    (now : R) (s : State) (p : Demo.Page) :
  not_start (e, now) = true ->
  snd (Demo.handle oh e now (s, p)) Demo.compass = p Demo.compass.
Proof.
  intros He. unfold Demo.handle. cbn [fst snd].
  destruct (dispatch_not_start_is_fire e now s He) as (cx & cy & Hd & _).
  destruct (dispatch e now s) as [s1 d]. cbn [snd] in *. subst d.
  unfold Demo.on_swipe, fireSwipeEvent. cbn [Detail.initial].
  apply not_start_type in He.
  destruct (type e); try contradiction; reflexivity.
Qed.

Lemma demo_run_keeps_compass (oh : Demo.ElemId -> R) (es : list (TouchEvent * R)) :
  forall (s : State) (p : Demo.Page),
    forallb not_start es = true ->
    snd (Demo.run oh es (s, p)) Demo.compass = p Demo.compass.
Proof.
  induction es as [ | [e now] rest IH]; intros s p Hes; [reflexivity | ].
  simpl in Hes. apply andb_true_iff in Hes. destruct Hes as [He Hrest].
  cbn [Demo.run].
  destruct (Demo.handle oh e now (s, p)) as [s1 p1] eqn:Hh.
  rewrite (IH s1 p1 Hrest).
  replace p1 with (snd (Demo.handle oh e now (s, p))) by now rewrite Hh.
  now apply demo_handle_keeps_compass.
Qed.

(** X25: On the page, the compass is placed by the [touchstart] only: through all
    the moves, lifts and cancels that follow, it stays displayed with its
    middle at the point of that [touchstart]. *)
Theorem demo_compass_stays_at_origin :
  forall (offsetHeight : Demo.ElemId -> R) (x y t : R)
         (es : list (TouchEvent * R)) (s : State) (p : Demo.Page),
    forallb not_start es = true ->
    snd (Demo.run offsetHeight ((mkTouchEvent touchstart x y, t) :: es) (s, p))
        Demo.compass =
    Demo.centred_at (offsetHeight Demo.compass) (Fin x) (Fin y).
Proof.
  intros oh x y t es s p Hes. cbn [Demo.run].
  destruct (Demo.handle oh (mkTouchEvent touchstart x y) t (s, p)) as [s1 p1] eqn:Hh.
  rewrite (demo_run_keeps_compass oh es s1 p1 Hes).
  replace p1 with (snd (Demo.handle oh (mkTouchEvent touchstart x y) t (s, p)))
    by now rewrite Hh.
  unfold Demo.handle, Demo.on_swipe, Demo.centerOnTouch, Demo.centred_at,
    dispatch, on_touchstart, fireSwipeEvent.
  cbn [type clientX clientY fst snd Detail.initial Detail.currentX
       Detail.currentY EventType_eqb orb Demo.ElemId_eqb originX originY
       ToNumber].
  now rewrite half_height.
Qed.

Lemma demo_compass_stays_at_origin_witness :
  forallb not_start demo_moves = true /\
  snd (Demo.run (fun _ => 100) ((mkTouchEvent touchstart 1 2, 0) :: demo_moves)
         (init, Demo.loaded))
      Demo.compass =
  Demo.centred_at 100 (Fin 1) (Fin 2).
Proof.
  split; [reflexivity | ].
  apply (demo_compass_stays_at_origin (fun _ => 100) 1 2 0 demo_moves init
           Demo.loaded eq_refl).
Defined.

(** X26: The page turns the echo on when it has loaded, so every record of every
    event that follows is sent to [console.debug]. *)
Theorem demo_page_echoes_every_record :
  forall es : list (TouchEvent * R),
    logEvents (Demo.on_load init) = true /\
    console es (Demo.on_load init) = snd (run es init).
Proof.
  intros es. split; [reflexivity | ].
  rewrite console_when_enabled by reflexivity.
  apply run_records_ignore_flag.
Qed.

(** ** The identity fields *)

(** X19: [initial] is true for a [touchstart] only, and [ongoing] is false for a
    [touchend] or [touchcancel] only; so a record that is [initial] is
    [ongoing]. *)
Theorem initial_and_ongoing_follow_the_event_type :
  forall (e : TouchEvent) (now : R) (s : State),
    let d := snd (dispatch e now s) in
    Detail.initial d = is_start (e, now) /\
    Detail.ongoing d = negb (terminal (e, now)) /\
    (Detail.initial d = true -> Detail.ongoing d = true).
Proof.
  intros e now s d. subst d. unfold dispatch, is_start, terminal. cbn [fst].
  destruct (type e) eqn:Hty; unfold_fire; rewrite Hty; cbn [EventType_eqb orb negb];
    repeat split; auto.
Qed.

(** ** The guard along a sequence of events *)

(** X9: No speed field of any record is [NaN], whatever the state the sequence
    starts in (also before any [touchstart]) and whatever the events are:
    the guard turns every [NaN] quotient into 0. *)
Theorem no_record_has_a_NaN_speed :
  forall (es : list (TouchEvent * R)) (s : State),
    Forall (fun d =>
              Detail.overallSpeedX d <> NaN /\ Detail.overallSpeedY d <> NaN /\
              Detail.overallSpeed d <> NaN /\
              Detail.latestSpeedX d <> NaN /\ Detail.latestSpeedY d <> NaN /\
              Detail.latestSpeed d <> NaN)
           (snd (run es s)).
Proof.
  induction es as [ | [e now] rest IH]; intros s; [constructor | ].
  rewrite run_cons. cbn [snd]. constructor; [ | apply IH].
  destruct (dispatch_is_fire e now s) as (s1 & cx & cy & -> & _).
  unfold_fire. repeat split; apply or_else_zero_not_NaN.
Qed.
